(** * owl_server/k8s.py: the Kubernetes job facade of the Owl scheduler

    A shallow embedding of [owl_server/k8s.py].  The module builds a
    [V1Job] object graph ([kube_create_job_object]) and drives the cluster
    through the generated client ([kube_create_job], [kube_delete_job],
    [kube_delete_empty_pods], [kube_test_credentials]).

    The generated client ([kubernetes_asyncio.client]) is not part of the
    repository.  Its model classes are records here, and its API entry
    points are the fields of an interface ([ClusterClient]) whose answers
    depend on the calls issued so far.  The client is asynchronous: an
    entry point that is awaited sends its request and hands back the answer
    (or raises) at the [await]; an entry point that is called without
    [await] only builds a coroutine object and sends nothing.
    [id_generator] draws from [random], whose generator is an interface as
    well ([RandomSource]). *)

From Stdlib Require Import String Ascii List ZArith Bool Lia Permutation.
From Stdlib Require Import Numbers.DecimalString Numbers.DecimalN.
Import ListNotations.

Local Open Scope string_scope.
Local Open Scope list_scope.

(** ** Python values *)

(** Dynamically typed data reaching the module: configuration values,
    environment values, resource quantities.  A [PDict] is a dict with
    string keys in insertion order (the keys of a dict are distinct; no
    statement below needs it); a [PObj] is an object carrying attributes (a
    configuration namespace).  A string is a sequence of code points below
    256. *)
#[warnings="-register-all"]
Inductive pyval : Type :=
| PNone
| PBool (b : bool)
| PInt (z : Z)
| PStr (s : string)
| PList (l : list pyval)
| PDict (d : list (string * pyval))
| PObj (attrs : list (string * pyval)).

(** Exceptions the module can meet.  [ApiException] and [ConfigException]
    come from the client; the others are raised by the interpreter. *)
Inductive exn : Type :=
| ApiException (reason : string)
| ConfigException (reason : string)
| AttributeError (type_name attr : string)
| KeyError (key : string)
| TypeError (msg : string)
| UnboundLocalError (var : string)
| OtherError (msg : string).

Inductive outcome (A : Type) : Type :=
| Return (a : A)
| Raise (e : exn).
Arguments Return {A} a.
Arguments Raise {A} e.

Definition is_return {A} (o : outcome A) : bool :=
  match o with Return _ => true | Raise _ => false end.

(** Truth value of an object, as [or] tests it. *)
Definition py_truthy (v : pyval) : bool :=
  match v with
  | PNone => false
  | PBool b => b
  | PInt z => negb (z =? 0)%Z
  | PStr s => negb (s =? "")
  | PList l => match l with [] => false | _ => true end
  | PDict d => match d with [] => false | _ => true end
  | PObj _ => true
  end.

(** [x or d] for an optional string argument: [None] and [""] are falsy. *)
Definition or_str (x : option string) (d : string) : string :=
  match x with
  | Some s => if s =? "" then d else s
  | None => d
  end.

(** [x or d] on arbitrary values. *)
Definition py_or (x d : pyval) : pyval :=
  if py_truthy x then x else d.

Definition type_name (v : pyval) : string :=
  match v with
  | PNone => "NoneType"
  | PBool _ => "bool"
  | PInt _ => "int"
  | PStr _ => "str"
  | PList _ => "list"
  | PDict _ => "dict"
  | PObj _ => "object"
  end.

Fixpoint assoc (k : string) (d : list (string * pyval)) : option pyval :=
  match d with
  | [] => None
  | (k', v) :: d' => if k =? k' then Some v else assoc k d'
  end.

(** [v.attr], for the attribute names this module reads ([resources],
    [volumeMounts], [securityContext], [volumes], [podSecurityContext],
    [node_selector]): none of them is an attribute of a built-in type. *)
Definition py_getattr (v : pyval) (attr : string) : outcome pyval :=
  match v with
  | PObj attrs =>
      match assoc attr attrs with
      | Some x => Return x
      | None => Raise (AttributeError "object" attr)
      end
  | _ => Raise (AttributeError (type_name v) attr)
  end.

(** [v[key]] with a string key. *)
Definition py_getitem (v : pyval) (key : string) : outcome pyval :=
  match v with
  | PDict d =>
      match assoc key d with
      | Some x => Return x
      | None => Raise (KeyError key)
      end
  | _ => Raise (TypeError (type_name v ++ " cannot be indexed by str"))
  end.

Definition chars (s : string) : list pyval :=
  map (fun c => PStr (String c EmptyString)) (list_ascii_of_string s).

(** The elements a [for] loop visits: list elements, dict keys, the
    characters of a string; anything else is not iterable. *)
Definition py_iter (v : pyval) : outcome (list pyval) :=
  match v with
  | PList l => Return l
  | PDict d => Return (map (fun kv => PStr (fst kv)) d)
  | PStr s => Return (chars s)
  | _ => Raise (TypeError ("'" ++ type_name v ++ "' object is not iterable"))
  end.

(** ** [str.split()] *)

(** [str.isspace] on code points below 256. *)
Definition isspace (c : ascii) : bool :=
  let n := nat_of_ascii c in
  (((9 <=? n) && (n <=? 13)) || ((28 <=? n) && (n <=? 32))
   || (n =? 133) || (n =? 160))%nat.

Fixpoint rev_string (acc s : string) : string :=
  match s with
  | EmptyString => acc
  | String c s' => rev_string (String c acc) s'
  end.

Definition flush (tok : string) (rest : list string) : list string :=
  match tok with
  | EmptyString => rest
  | _ => rev_string EmptyString tok :: rest
  end.

(** The scanner of [split()] without separator: runs of whitespace
    separate the tokens, and no empty token is produced.  [tok] is the
    token being read, last character first. *)
Fixpoint split_from (tok : string) (s : string) : list string :=
  match s with
  | EmptyString => flush tok []
  | String c s' =>
      if isspace c then flush tok (split_from EmptyString s')
      else split_from (String c tok) s'
  end.

Definition split (s : string) : list string := split_from EmptyString s.

(** ** [str] on integers *)

(** The interpreter's default limit on the digits of an integer that
    [str] converts ([sys.int_max_str_digits]). *)
Definition int_max_str_digits : nat := 4300.

(** The number of decimal digits of [z], sign apart. *)
Definition int_digits (z : Z) : nat :=
  String.length (NilZero.string_of_uint (N.to_uint (Z.abs_N z))).

(** [str] goes through on [v]: no integer it has to convert is over the
    limit.  A list or a dict renders its elements; an object is rendered
    by its own [repr]. *)
Fixpoint renderable (v : pyval) : bool :=
  match v with
  | PInt z => (int_digits z <=? int_max_str_digits)%nat
  | PList l => forallb renderable l
  | PDict d => forallb (fun kv => renderable (snd kv)) d
  | _ => true
  end.

(** What [str] raises on an integer over the limit. *)
Definition ValueError : exn :=
  OtherError
    "ValueError: Exceeds the limit (4300 digits) for integer string conversion".

(** ** Model classes of the generated client

    Only the fields the module sets or reads are kept; the others stay at
    their default [None].  The constructors check that a few fields are
    not [None] ([name] of [V1EnvVar] and [V1Container], [containers] of
    [V1PodSpec], [template] of [V1JobSpec]); the builder always fills them,
    so building a record never raises. *)

Record V1ObjectMeta := {
  meta_namespace : option string;
  meta_name : option string }.

Record V1PodStatus := { status_phase : option string }.

Record V1Pod := {
  pod_metadata : V1ObjectMeta;
  pod_status : V1PodStatus }.

Record V1PodList := { items : list V1Pod }.

Record V1DeleteOptions := {
  do_grace_period_seconds : option Z;
  do_propagation_policy : option string }.

(** [client.V1DeleteOptions()]: every field left unset. *)
Definition empty_delete_options : V1DeleteOptions :=
  {| do_grace_period_seconds := None; do_propagation_policy := None |}.

Record V1EnvVar := {
  env_name : string;
  env_value : string }.

Record V1Container := {
  c_name : string;
  c_image : option string;
  c_env : list V1EnvVar;
  c_image_pull_policy : string;
  c_args : list string;
  c_resources : option pyval;
  c_volume_mounts : list pyval;
  c_security_context : option pyval }.

Record V1PodSpec := {
  ps_containers : list V1Container;
  ps_restart_policy : string;
  ps_termination_grace_period_seconds : Z;
  ps_volumes : list pyval;
  ps_service_account_name : option string;
  ps_security_context : option pyval;
  ps_node_selector : pyval }.

Record V1PodTemplateSpec := {
  pts_metadata : option V1ObjectMeta;
  pts_spec : option V1PodSpec }.

Record V1JobSpec := {
  js_ttl_seconds_after_finished : Z;
  js_template : V1PodTemplateSpec;
  js_backoff_limit : Z }.

(** [client.V1JobStatus()]: every field left unset. *)
Inductive V1JobStatus := V1JobStatus_unset.

Record V1Job := {
  job_api_version : string;
  job_kind : string;
  job_metadata : option V1ObjectMeta;
  job_status : option V1JobStatus;
  job_spec : option V1JobSpec }.

(** The classes [_make_spec_from_dict] is asked to build. *)
Inductive model_class :=
| V1VolumeMount | V1SecurityContext | V1Volume | V1PodSecurityContext.

(** The pod specification and the containers reached from a job. *)
Definition job_pod_spec (body : V1Job) : option V1PodSpec :=
  match job_spec body with
  | Some js => pts_spec (js_template js)
  | None => None
  end.

Definition job_containers (body : V1Job) : list V1Container :=
  match job_pod_spec body with
  | Some ps => ps_containers ps
  | None => []
  end.

(** ** The outside world *)

(** Requests that leave the module, with the arguments it passes. *)
Inductive api_call :=
| LoadInclusterConfig
| ListNamespacedPod (namespace : string) (pretty : bool) (timeout_seconds : Z)
| DeleteNamespacedPod (name : option string) (namespace : string)
    (body : V1DeleteOptions)
| CreateNamespacedJob (namespace : string) (body : V1Job) (pretty : bool)
| DeleteNamespacedJob (name : option string) (namespace : string)
    (propagation_policy : string) (grace_period_seconds : Z)
| GetApiResources.

(** The object an entry point hands back when it is called without
    [await]: the request it would send, not sent. *)
Inductive coroutine := Coroutine (request : api_call).

(** What the client answers to an awaited call, given the calls made
    before it. *)
Class ClusterClient := {
  load_incluster_config : list api_call -> outcome unit;
  list_namespaced_pod :
    list api_call -> string -> bool -> Z -> outcome V1PodList;
  delete_namespaced_pod :
    list api_call -> option string -> string -> V1DeleteOptions ->
    outcome pyval;
  create_namespaced_job :
    list api_call -> string -> V1Job -> bool -> outcome pyval;
  delete_namespaced_job :
    list api_call -> option string -> string -> string -> Z -> outcome pyval;
  get_api_resources : list api_call -> outcome pyval }.

(** Code the builder calls that lives outside [k8s.py]:
    - [py_repr]: how [str] renders a value that is not None, a bool, an int
      or a str (the built-in [repr] of containers and objects);
    - [V1ResourceRequirements]: the client's constructor applied to the
      keyword arguments that [resources] unpacks to;
    - [_make_spec_from_dict]: the helper imported from [owl_server/utils.py],
      which turns a loosely typed structure into an instance of the given
      model class or raises. *)
Class Externals := {
  py_repr : pyval -> string;
  V1ResourceRequirements : list (string * pyval) -> outcome pyval;
  _make_spec_from_dict : pyval -> model_class -> outcome pyval }.

Inductive log_level := DEBUG | INFO | ERROR.

Inductive log_msg :=
| MsgStr (s : string)
| MsgPod (p : V1Pod)
| MsgVal (v : pyval)
| MsgCoroutine (co : coroutine).

(** Where the module runs.  [client.CoreV1Api()] opens a client session,
    which the client may refuse outside a running event loop; the answer
    of the constructor is taken as given. *)
Class Runtime := { CoreV1Api : outcome unit }.

Record log_record := { level : log_level; msg : log_msg }.

(** The calls issued and the records handed to [logging], oldest first. *)
Record world := {
  calls : list api_call;
  logs : list log_record }.

(** ** Computations: exceptions over the world *)

Definition M (A : Type) : Type := world -> outcome A * world.

Definition ret {A} (a : A) : M A := fun w => (Return a, w).

Definition raise {A} (e : exn) : M A := fun w => (Raise e, w).

Definition bind {A B} (m : M A) (f : A -> M B) : M B :=
  fun w =>
    match m w with
    | (Return a, w') => f a w'
    | (Raise e, w') => (Raise e, w')
    end.

Definition lift {A} (o : outcome A) : M A := fun w => (o, w).

Declare Scope py_scope.
Delimit Scope py_scope with py.
Notation "x <- m ;; k" := (bind m (fun x => k))
  (at level 61, m at next level, right associativity) : py_scope.
Notation "m ;; k" := (bind m (fun _ => k))
  (at level 61, right associativity) : py_scope.
Local Open Scope py_scope.

(** [try: m  except ApiException as e: handler e]; [e] is rendered by [str]
    in the handlers, so the handler receives that text. *)
Definition try_except_ApiException {A} (m : M A) (handler : string -> M A)
  : M A :=
  fun w =>
    match m w with
    | (Raise (ApiException e), w') => handler e w'
    | r => r
    end.

Definition call {A} (c : api_call) (answer : list api_call -> outcome A)
  : M A :=
  fun w => (answer (calls w), {| calls := calls w ++ [c]; logs := logs w |}).

Definition logging (lvl : log_level) (m : log_msg) : M unit :=
  fun w =>
    (Return tt,
     {| calls := calls w; logs := logs w ++ [{| level := lvl; msg := m |}] |}).

(** [for x in l: body x] *)
Fixpoint for_each {A} (l : list A) (body : A -> M unit) : M unit :=
  match l with
  | [] => ret tt
  | x :: l' => body x ;; for_each l' body
  end.

(** [acc = []; for x in l: acc.append(f x)] *)
Fixpoint collect {A B} (f : A -> M B) (l : list A) : M (list B) :=
  match l with
  | [] => ret []
  | x :: l' => y <- f x ;; ys <- collect f l' ;; ret (y :: ys)
  end.

Definition nl : string := String (ascii_of_nat 10) EmptyString.

(** [str(x)] and [{}] formatting of an optional string. *)
Definition fmt (x : option string) : string :=
  match x with Some s => s | None => "None" end.

(** ** [kube_delete_empty_pods] *)

Section K8s.

Context {client : ClusterClient} {ext : Externals} {rt : Runtime}.

(** [pod.status.phase == phase] *)
Definition phase_is (phase : string) (pod : V1Pod) : bool :=
  match status_phase (pod_status pod) with
  | Some p => p =? phase
  | None => false
  end.

(** [co.attr] on a coroutine: it has none of the attributes the module
    reads. *)
Definition coroutine_getattr {A} (co : coroutine) (attr : string) : M A :=
  raise (AttributeError "coroutine" attr).

(** One turn of the loop over [pods.items].  [delete_namespaced_pod] is
    called without [await]: [api_response] is the coroutine, no request is
    sent and no [ApiException] can come back. *)
Definition delete_one (namespace phase : string)
  (deleteoptions : V1DeleteOptions) (pod : V1Pod) : M unit :=
  logging DEBUG (MsgPod pod) ;;
  let podname := meta_name (pod_metadata pod) in
  try_except_ApiException
    (if phase_is phase pod
     then
       let api_response :=
         Coroutine (DeleteNamespacedPod podname namespace deleteoptions) in
       logging INFO (MsgStr ("Pod: " ++ fmt podname ++ " deleted!")) ;;
       logging DEBUG (MsgCoroutine api_response)
     else
       logging INFO
         (MsgStr ("Pod: " ++ fmt podname ++ " still not done... Phase: "
                  ++ fmt (status_phase (pod_status pod)))))
    (fun e =>
       logging ERROR
         (MsgStr ("Exception when calling CoreV1Api->delete_namespaced_pod: "
                  ++ e ++ nl))).

(** The function is a plain [def]: [list_namespaced_pod] is called
    without [await], so [pods] is bound to the coroutine and the [except]
    branch (which would leave [pods] unbound: [None] below) has nothing to
    catch.  [pods.items] is then read off the coroutine. *)
Definition kube_delete_empty_pods (namespace phase : option string)
  : M pyval :=
  let namespace := or_str namespace "default" in
  let phase := or_str phase "Succeeded" in
  let deleteoptions := empty_delete_options in
  lift CoreV1Api ;;
  pods <-
    try_except_ApiException
      (ret (Some (Coroutine (ListNamespacedPod namespace true 60))))
      (fun e =>
         logging ERROR
           (MsgStr ("Exception when calling CoreV1Api->list_namespaced_pod: "
                    ++ e ++ nl)) ;;
         ret None) ;;
  pods <- match pods with
          | Some r => ret r
          | None => raise (UnboundLocalError "pods")
          end ;;
  pod_items <- coroutine_getattr pods "items" ;;
  for_each pod_items (delete_one namespace phase deleteoptions) ;;
  ret PNone.

(** ** [kube_create_job_object] *)

(** [str(v)]: it raises [ValueError] when it meets an integer of more
    than [int_max_str_digits] digits, in [v] itself or inside a list or a
    dict it has to render. *)
Definition py_str (v : pyval) : outcome string :=
  if renderable v then
    Return match v with
           | PNone => "None"
           | PBool true => "True"
           | PBool false => "False"
           | PInt z => NilZero.string_of_int (Z.to_int z)
           | PStr s => s
           | _ => py_repr v
           end
  else Raise ValueError.

(** [**v]: the keyword arguments a mapping unpacks to. *)
Definition kwargs (v : pyval) : outcome (list (string * pyval)) :=
  match v with
  | PDict d => Return d
  | _ => Raise (TypeError ("argument after ** must be a mapping, not "
                           ++ type_name v))
  end.

Definition is_None (v : pyval) : bool :=
  match v with PNone => true | _ => false end.

(** [_make_spec_from_dict(v, cls) if v is not None else None] *)
Definition convert_unless_None (v : pyval) (cls : model_class)
  : M (option pyval) :=
  if negb (is_None v) then
    r <- lift (_make_spec_from_dict v cls) ;; ret (Some r)
  else
    ret None.

(** [client.V1EnvVar(name=n, value=str(v))] *)
Definition env_var (n : string) (v : pyval) : M V1EnvVar :=
  value <- lift (py_str v) ;;
  ret {| env_name := n; env_value := value |}.

(** The block [if (resources := extraConfig.resources) is not None: ...
    else: resourcesReq = None] of the builder: the resource requirements
    and the environment list it leaves behind. *)
Definition resource_requirements (resources : pyval)
  (env_list : list V1EnvVar) : M (option pyval * list V1EnvVar) :=
  if negb (is_None resources) then
    kw <- lift (kwargs resources) ;;
    resourcesReq <- lift (V1ResourceRequirements kw) ;;
    requests <- lift (py_getitem resources "requests") ;;
    cpu_requests <- lift (py_getitem requests "cpu") ;;
    requests <- lift (py_getitem resources "requests") ;;
    mem_requests <- lift (py_getitem requests "memory") ;;
    limits <- lift (py_getitem resources "limits") ;;
    cpu_limits <- lift (py_getitem limits "cpu") ;;
    limits <- lift (py_getitem resources "limits") ;;
    mem_limits <- lift (py_getitem limits "memory") ;;
    e1 <- env_var "CPU_REQUESTS" cpu_requests ;;
    e2 <- env_var "MEM_REQUESTS" mem_requests ;;
    e3 <- env_var "CPU_LIMITS" cpu_limits ;;
    e4 <- env_var "MEM_LIMITS" mem_limits ;;
    ret (Some resourcesReq, env_list ++ [e1; e2; e3; e4])
  else
    ret (None, env_list).

Definition kube_create_job_object
  (name container_image command namespace container_name : option string)
  (env_vars : option (list (string * pyval)))
  (extraConfig : pyval)
  (service_account_name : option string) : M V1Job :=
  let env_vars := match env_vars with Some d => d | None => [] end in
  let namespace := or_str namespace "default" in
  let command := or_str command "sleep 60" in
  let container_name := or_str container_name "jobcontainer" in
  let metadata :=
    {| meta_namespace := Some namespace; meta_name := name |} in
  let status := V1JobStatus_unset in
  env_list <- collect (fun kv => env_var (fst kv) (snd kv)) env_vars ;;
  resources <- lift (py_getattr extraConfig "resources") ;;
  rr <- resource_requirements resources env_list ;;
  let resourcesReq := fst rr in
  let env_list := snd rr in
  vms <- lift (py_getattr extraConfig "volumeMounts") ;;
  vms <- lift (py_iter vms) ;;
  volume_mounts <-
    collect (fun vm => lift (_make_spec_from_dict vm V1VolumeMount)) vms ;;
  security_context <- lift (py_getattr extraConfig "securityContext") ;;
  secReq <- convert_unless_None security_context V1SecurityContext ;;
  let container :=
    {| c_name := container_name;
       c_image := container_image;
       c_env := env_list;
       c_image_pull_policy := "IfNotPresent";
       c_args := split command;
       c_resources := resourcesReq;
       c_volume_mounts := volume_mounts;
       c_security_context := secReq |} in
  vols <- lift (py_getattr extraConfig "volumes") ;;
  vols <- lift (py_iter vols) ;;
  volumes <- collect (fun vol => lift (_make_spec_from_dict vol V1Volume)) vols ;;
  pod_security_context <- lift (py_getattr extraConfig "podSecurityContext") ;;
  secReq <- convert_unless_None pod_security_context V1PodSecurityContext ;;
  node_selector <- lift (py_getattr extraConfig "node_selector") ;;
  let pod_spec :=
    {| ps_containers := [container];
       ps_restart_policy := "Never";
       ps_termination_grace_period_seconds := 30;
       ps_volumes := volumes;
       ps_service_account_name := service_account_name;
       ps_security_context := secReq;
       ps_node_selector := node_selector |} in
  let template := {| pts_metadata := None; pts_spec := Some pod_spec |} in
  ret {| job_api_version := "batch/v1";
         job_kind := "Job";
         job_metadata := Some metadata;
         job_status := Some status;
         job_spec :=
           Some {| js_ttl_seconds_after_finished := 300;
                   js_template := template;
                   js_backoff_limit := 2 |} |}.

(** ** The lifecycle calls *)

Definition kube_create_job
  (name image command namespace : option string)
  (extraConfig : pyval)
  (env_vars : option (list (string * pyval)))
  (service_account_name : option string) : M pyval :=
  let namespace := or_str namespace "default" in
  body <-
    kube_create_job_object name image
      (Some (or_str command "sleep 60")) (Some namespace) None
      env_vars (py_or extraConfig (PDict [])) service_account_name ;;
  call LoadInclusterConfig load_incluster_config ;;
  res <- call (CreateNamespacedJob namespace body true)
           (fun h => create_namespaced_job h namespace body true) ;;
  ret res.

Definition kube_delete_job (name namespace : option string) : M pyval :=
  call LoadInclusterConfig load_incluster_config ;;
  let ns := or_str namespace "default" in
  res <- call (DeleteNamespacedJob name ns "Background" 0)
           (fun h => delete_namespaced_job h name ns "Background" 0%Z) ;;
  ret res.

Definition kube_test_credentials : M pyval :=
  call LoadInclusterConfig load_incluster_config ;;
  call GetApiResources get_api_resources ;;
  ret PNone.

End K8s.

(** ** Sample surroundings

    Concrete clusters, helpers and requests on which the statements below
    are instantiated. *)

Definition mk_pod (name phase : string) : V1Pod :=
  {| pod_metadata := {| meta_namespace := Some "owl"; meta_name := Some name |};
     pod_status := {| status_phase := Some phase |} |}.

Definition three_pods : V1PodList :=
  {| items := [ mk_pod "pipeline-a" "Succeeded";
                mk_pod "pipeline-b" "Running";
                mk_pod "pipeline-c" "Succeeded" ] |}.

(** A cluster on which every call goes through. *)
Definition steady_cluster : ClusterClient :=
  {| load_incluster_config := fun _ => Return tt;
     list_namespaced_pod := fun _ _ _ _ => Return three_pods;
     delete_namespaced_pod := fun _ _ _ _ => Return (PStr "Success");
     create_namespaced_job := fun _ _ _ _ => Return (PStr "Created");
     delete_namespaced_job := fun _ _ _ _ _ => Return (PStr "Success");
     get_api_resources := fun _ => Return PNone |}.

(** Conversions that keep the fields of a dict and refuse anything else. *)
Definition plain_externals : Externals :=
  {| py_repr := fun _ => "<object>";
     V1ResourceRequirements := fun kw => Return (PObj kw);
     _make_spec_from_dict := fun v _ =>
       match v with
       | PDict d => Return (PObj d)
       | _ => Raise (TypeError "not a dict")
       end |}.

Definition sample_resources : pyval :=
  PDict [ ("requests", PDict [("cpu", PStr "500m"); ("memory", PStr "1Gi")]);
          ("limits", PDict [("cpu", PInt 2); ("memory", PStr "4Gi")]) ].

Definition sample_config (resources : pyval) : pyval :=
  PObj [ ("resources", resources);
         ("volumeMounts",
          PList [PDict [("name", PStr "data"); ("mountPath", PStr "/data")]]);
         ("securityContext", PNone);
         ("volumes", PList [PDict [("name", PStr "data")]]);
         ("podSecurityContext", PDict [("runAsUser", PInt 1000)]);
         ("node_selector", PNone) ].

Definition sample_env : option (list (string * pyval)) :=
  Some [("OWL_JOB", PInt 42); ("DEBUG", PBool true)].

Definition fresh_world : world := {| calls := []; logs := [] |}.


(** The module called from plain synchronous code, where the client
    refuses to open a session. *)
Definition outside_loop : Runtime :=
  {| CoreV1Api := Raise (OtherError "RuntimeError: no running event loop") |}.

(** The integer written as 1 followed by 4300 zeros: 4301 digits. *)
Definition huge : pyval :=
  PInt (Z.of_N (N.of_uint (Decimal.D1 (Nat.iter 4300 Decimal.D0 Decimal.Nil)))).

(** ** Vocabulary of the statements *)

(** [m] yields the same outcome in every world and changes nothing. *)
Definition effect_free {A} (m : M A) : Prop :=
  exists r, forall w, m w = (r, w).

(** [env] is the four entries the builder derives from [resources]:
    the values found at [requests.cpu], [requests.memory], [limits.cpu] and
    [limits.memory], rendered by [str], under their fixed names and in
    that order. *)
Definition synthetic_entries {ext : Externals} (resources : pyval)
  (env : list V1EnvVar) : Prop :=
  exists requests limits cpu_requests mem_requests cpu_limits mem_limits,
    py_getitem resources "requests" = Return requests /\
    py_getitem requests "cpu" = Return cpu_requests /\
    py_getitem requests "memory" = Return mem_requests /\
    py_getitem resources "limits" = Return limits /\
    py_getitem limits "cpu" = Return cpu_limits /\
    py_getitem limits "memory" = Return mem_limits /\
    exists s1 s2 s3 s4,
      py_str cpu_requests = Return s1 /\
      py_str mem_requests = Return s2 /\
      py_str cpu_limits = Return s3 /\
      py_str mem_limits = Return s4 /\
      env = [ {| env_name := "CPU_REQUESTS"; env_value := s1 |};
              {| env_name := "MEM_REQUESTS"; env_value := s2 |};
              {| env_name := "CPU_LIMITS"; env_value := s3 |};
              {| env_name := "MEM_LIMITS"; env_value := s4 |} ].

(** [env] is the user-supplied part of an environment list: one entry
    per item of [env_vars], in the order of the dict, named by the key and
    valued by [str] of the value. *)
Definition user_supplied {ext : Externals}
  (env_vars : option (list (string * pyval))) (env : list V1EnvVar) : Prop :=
  Forall2
    (fun kv ev => env_name ev = fst kv /\ py_str (snd kv) = Return (env_value ev))
    (match env_vars with Some d => d | None => [] end) env.

(** [str] goes through on every value of [env_vars]. *)
Definition renders (env_vars : option (list (string * pyval))) : Prop :=
  Forall (fun kv => renderable (snd kv) = true)
    (match env_vars with Some d => d | None => [] end).

(** No character of [s] is whitespace. *)
Definition no_space (s : string) : Prop :=
  forall c, In c (list_ascii_of_string s) -> isspace c = false.

(** [s] with its whitespace characters removed. *)
Fixpoint strip_spaces (s : string) : string :=
  match s with
  | EmptyString => EmptyString
  | String c s' =>
      if isspace c then strip_spaces s' else String c (strip_spaces s')
  end.

(** ** [id_generator] *)

(** The generator behind [random]: [randbelow s n] draws a number below
    [n] and hands back the generator's next state. *)
Class RandomSource := {
  rng : Type;
  randbelow : rng -> nat -> nat * rng;
  randbelow_lt : forall s n, 0 < n -> fst (randbelow s n) < n }.

(** What [random.choice] raises on an empty sequence. *)
Definition IndexError : exn :=
  OtherError "IndexError: Cannot choose from an empty sequence".

Definition ascii_lowercase : string := "abcdefghijklmnopqrstuvwxyz".

Definition digits : string := "0123456789".

Section Random.

Context {R : RandomSource}.

(** [random.choice(seq)]: [seq[randbelow(len(seq))]]; nothing is drawn
    when [seq] is empty. *)
Definition choice (seq : string) (s : rng) : outcome ascii * rng :=
  match String.length seq with
  | O => (Raise IndexError, s)
  | n =>
      let (i, s') := randbelow s n in
      match String.get i seq with
      | Some c => (Return c, s')
      | None => (Raise IndexError, s')
      end
  end.

(** [random.choice(chars) for _ in range(n)], joined as it is drawn. *)
Fixpoint choices (n : nat) (chars : string) (s : rng)
  : outcome string * rng :=
  match n with
  | O => (Return EmptyString, s)
  | S n' =>
      match choice chars s with
      | (Return c, s1) =>
          match choices n' chars s1 with
          | (Return rest, s2) => (Return (String c rest), s2)
          | (Raise e, s2) => (Raise e, s2)
          end
      | (Raise e, s1) => (Raise e, s1)
      end
  end.

(** [None] is an argument left out: [size=12],
    [chars=string.ascii_lowercase + string.digits].  [range(size)] is
    empty for a negative [size]. *)
Definition id_generator (size : option Z) (chars : option string) (s : rng)
  : outcome string * rng :=
  let size := match size with Some n => n | None => 12%Z end in
  let chars :=
    match chars with
    | Some c => c
    | None => (ascii_lowercase ++ digits)%string
    end in
  choices (Z.to_nat size) chars s.

End Random.

(** A generator that steps through the residues of a counter. *)
Definition counter_source : RandomSource :=
  {| rng := nat;
     randbelow := fun s n => ((7 * s) mod n, S s);
     randbelow_lt := fun s n H =>
       Nat.mod_upper_bound (7 * s) n (proj2 (Nat.neq_0_lt_0 n) H) |}.

(** ** Further vocabulary *)

(** [o] is what the builder attaches for the optional structure [v]:
    nothing when [v] is [None], else the conversion of [v] into [cls]. *)
Definition converted {ext : Externals} (v : pyval) (cls : model_class)
  (o : option pyval) : Prop :=
  (v = PNone /\ o = None) \/
  (v <> PNone /\ exists r, _make_spec_from_dict v cls = Return r /\ o = Some r).

(** The attributes the builder reads from [extraConfig]. *)
Definition config_attributes : list string :=
  [ "resources"; "volumeMounts"; "securityContext"; "volumes";
    "podSecurityContext"; "node_selector" ].

(** The names of the entries the builder derives from [resources]. *)
Definition synthetic_names : list string :=
  [ "CPU_REQUESTS"; "MEM_REQUESTS"; "CPU_LIMITS"; "MEM_LIMITS" ].

(** How many entries of [env] carry the name [n]. *)
Definition entries_named (n : string) (env : list V1EnvVar) : nat :=
  count_occ string_dec (map env_name env) n.

(** A lowercase ASCII letter or a digit. *)
Definition lower_alnum (c : ascii) : bool :=
  let n := nat_of_ascii c in
  (((97 <=? n) && (n <=? 122)) || ((48 <=? n) && (n <=? 57)))%nat.

(** * Properties *)

(** ** Computations that leave the world alone *)

Lemma effect_free_ret {A} (a : A) : effect_free (ret a).
Proof. exists (Return a). reflexivity. Qed.

Lemma effect_free_raise {A} (e : exn) : effect_free (@raise A e).
Proof. exists (Raise e). reflexivity. Qed.

Lemma effect_free_lift {A} (o : outcome A) : effect_free (lift o).
Proof. exists o. reflexivity. Qed.

Lemma effect_free_bind {A B} (m : M A) (f : A -> M B) :
  effect_free m -> (forall a, effect_free (f a)) -> effect_free (bind m f).
Proof.
  intros [r Hm] Hf. destruct r as [a | e].
  - destruct (Hf a) as [r' Hr']. exists r'. intros w.
    unfold bind. rewrite Hm. apply Hr'.
  - exists (Raise e). intros w. unfold bind. rewrite Hm. reflexivity.
Qed.

Lemma effect_free_collect {A B} (f : A -> M B) (l : list A) :
  (forall a, effect_free (f a)) -> effect_free (collect f l).
Proof.
  intros Hf. induction l as [| x l IH]; simpl.
  - apply effect_free_ret.
  - apply effect_free_bind; [apply Hf |]. intros y.
    apply effect_free_bind; [exact IH |]. intros ys. apply effect_free_ret.
Qed.

Create HintDb effect_free.
#[local] Hint Resolve effect_free_ret effect_free_raise effect_free_lift
  : effect_free.

(** ** Inversion of computations that return *)

Lemma bind_Return_inv {A B} (m : M A) (f : A -> M B) w b w' :
  bind m f w = (Return b, w') ->
  exists a w1, m w = (Return a, w1) /\ f a w1 = (Return b, w').
Proof.
  unfold bind. destruct (m w) as [[a | e] w1]; [eauto | discriminate].
Qed.

Lemma lift_Return_inv {A} (o : outcome A) w a w' :
  lift o w = (Return a, w') -> o = Return a /\ w' = w.
Proof. unfold lift. intros H. inversion H. auto. Qed.

Lemma ret_inv {A} (a b : A) w w' :
  ret a w = (Return b, w') -> b = a /\ w' = w.
Proof. unfold ret. intros H. inversion H. auto. Qed.

Ltac bind_inv H :=
  let a := fresh "a" in
  let w1 := fresh "w" in
  let H1 := fresh "H" in
  apply bind_Return_inv in H; destruct H as (a & w1 & H1 & H);
  first [ apply lift_Return_inv in H1; destruct H1 as [H1 ->] | idtac ].

(** ** Tokens of [split] *)

Lemma rev_string_chars (acc s : string) :
  list_ascii_of_string (rev_string acc s)
  = rev (list_ascii_of_string s) ++ list_ascii_of_string acc.
Proof.
  revert acc. induction s as [| c s IH]; intros acc; simpl.
  - reflexivity.
  - rewrite IH. simpl. rewrite <- app_assoc. reflexivity.
Qed.

Lemma rev_string_no_space (tok : string) :
  no_space tok -> no_space (rev_string EmptyString tok).
Proof.
  intros H c. rewrite rev_string_chars, app_nil_r, <- in_rev. apply H.
Qed.

Lemma rev_string_nonempty (c : ascii) (tok : string) :
  rev_string EmptyString (String c tok) <> EmptyString.
Proof.
  intros E. apply (f_equal list_ascii_of_string) in E.
  rewrite rev_string_chars in E. simpl in E.
  destruct (rev (list_ascii_of_string tok)); discriminate.
Qed.

Lemma flush_In (tok : string) (rest : list string) (t : string) :
  In t (flush tok rest) ->
  (tok <> EmptyString /\ t = rev_string EmptyString tok) \/ In t rest.
Proof.
  destruct tok; simpl; [auto |].
  intros [<- | H]; [left; split; [discriminate | reflexivity] | auto].
Qed.

Lemma split_from_tokens (s tok t : string) :
  no_space tok -> In t (split_from tok s) ->
  t <> EmptyString /\ no_space t.
Proof.
  revert tok. induction s as [| c s IH]; intros tok Htok; simpl.
  - intros H. apply flush_In in H. destruct H as [[Hne ->] | []].
    split; [| apply rev_string_no_space; exact Htok].
    destruct tok; [congruence | apply rev_string_nonempty].
  - destruct (isspace c) eqn:Hc.
    + intros H. apply flush_In in H. destruct H as [[Hne ->] | H].
      * split; [| apply rev_string_no_space; exact Htok].
        destruct tok; [congruence | apply rev_string_nonempty].
      * apply (IH EmptyString); [intros ? [] | exact H].
    + apply IH. intros c' [<- | H]; [exact Hc | apply Htok; exact H].
Qed.

Lemma split_tokens (s t : string) :
  In t (split s) -> t <> EmptyString /\ no_space t.
Proof. apply split_from_tokens. intros ? []. Qed.

Lemma string_app_assoc (a b c : string) :
  ((a ++ b) ++ c = a ++ (b ++ c))%string.
Proof. induction a as [| x a IH]; simpl; [| rewrite IH]; reflexivity. Qed.

Lemma rev_string_app (acc s : string) :
  rev_string acc s = (rev_string EmptyString s ++ acc)%string.
Proof.
  revert acc. induction s as [| c s IH]; intros acc; simpl.
  - reflexivity.
  - rewrite (IH (String c acc)), (IH (String c EmptyString)).
    rewrite string_app_assoc. reflexivity.
Qed.

Lemma flush_concat (tok : string) (rest : list string) :
  fold_right String.append EmptyString (flush tok rest)
  = (rev_string EmptyString tok
     ++ fold_right String.append EmptyString rest)%string.
Proof. destruct tok; reflexivity. Qed.

(** Gluing the tokens back together gives the string without its
    whitespace: the scanner drops whitespace and nothing else. *)
Lemma split_from_concat (s tok : string) :
  fold_right String.append EmptyString (split_from tok s)
  = (rev_string EmptyString tok ++ strip_spaces s)%string.
Proof.
  revert tok. induction s as [| c s IH]; intros tok; simpl.
  - rewrite flush_concat. reflexivity.
  - destruct (isspace c).
    + rewrite flush_concat, IH. reflexivity.
    + rewrite IH. simpl. rewrite (rev_string_app (String c EmptyString) tok).
      rewrite string_app_assoc. reflexivity.
Qed.

Lemma collect_inv {A B} (P : A -> B -> Prop) (f : A -> M B) :
  (forall x w y w', f x w = (Return y, w') -> P x y /\ w' = w) ->
  forall l w ys w',
    collect f l w = (Return ys, w') -> Forall2 P l ys /\ w' = w.
Proof.
  intros Hf. induction l as [| x l IH]; intros w ys w' H; simpl in H.
  - apply ret_inv in H. destruct H as [-> ->]. split; constructor.
  - bind_inv H. bind_inv H. apply ret_inv in H. destruct H as [-> ->].
    match goal with
    | Hx : f _ _ = _ |- _ => apply Hf in Hx; destruct Hx as [Hx ->]
    end.
    match goal with
    | Hc : collect _ _ _ = _ |- _ => apply IH in Hc; destruct Hc as [Hc ->]
    end.
    split; [constructor; assumption | reflexivity].
Qed.

Section BuilderFacts.

Context {ext : Externals}.

Lemma effect_free_env_var (n : string) (v : pyval) :
  effect_free (env_var n v).
Proof.
  unfold env_var. apply effect_free_bind; [| intros ?];
    auto with effect_free.
Qed.

Lemma effect_free_convert (v : pyval) (cls : model_class) :
  effect_free (convert_unless_None v cls).
Proof.
  unfold convert_unless_None. destruct (negb (is_None v));
    [apply effect_free_bind; [| intros ?] |]; auto with effect_free.
Qed.

Lemma effect_free_resource_requirements resources env_list :
  effect_free (resource_requirements resources env_list).
Proof.
  unfold resource_requirements. destruct (negb (is_None resources));
    repeat first
      [ apply effect_free_ret
      | apply effect_free_lift
      | apply effect_free_env_var
      | apply effect_free_bind; [| intros ?] ].
Qed.

Lemma kube_create_job_object_effect_free
  name container_image command namespace container_name env_vars extraConfig
  service_account_name :
  effect_free
    (kube_create_job_object name container_image command namespace
       container_name env_vars extraConfig service_account_name).
Proof.
  unfold kube_create_job_object.
  repeat first
    [ apply effect_free_ret
    | apply effect_free_lift
    | apply effect_free_env_var
    | apply effect_free_convert
    | apply effect_free_resource_requirements
    | apply effect_free_collect; intros ?
    | apply effect_free_bind; [| intros ?] ].
Qed.

End BuilderFacts.

Section BuilderInversion.

Context {ext : Externals}.

Lemma env_var_inv n v w ev w' :
  env_var n v w = (Return ev, w') ->
  exists s,
    py_str v = Return s /\ ev = {| env_name := n; env_value := s |} /\ w' = w.
Proof.
  unfold env_var. intros H. bind_inv H. apply ret_inv in H.
  destruct H as [-> ->]. eauto.
Qed.

Lemma env_loop_inv (d : list (string * pyval)) w env w' :
  collect (fun kv => env_var (fst kv) (snd kv)) d w = (Return env, w') ->
  Forall2
    (fun kv ev => env_name ev = fst kv /\ py_str (snd kv) = Return (env_value ev))
    d env /\ w' = w.
Proof.
  apply collect_inv. intros x w0 y w0' H.
  apply env_var_inv in H. destruct H as (s & Hs & -> & ->). auto.
Qed.

Lemma resource_requirements_inv resources env_list w rr w' :
  resource_requirements resources env_list w = (Return rr, w') ->
  (resources = PNone /\ rr = (None, env_list)) \/
  (resources <> PNone /\
   exists r synth,
     rr = (Some r, env_list ++ synth) /\ synthetic_entries resources synth).
Proof.
  unfold resource_requirements. destruct resources; simpl; intros H;
    try (apply ret_inv in H; destruct H as [-> _]; left; split; reflexivity);
    right; (split; [discriminate |]);
    repeat bind_inv H; apply ret_inv in H; destruct H as [-> _];
    repeat match goal with
      | He : env_var _ _ _ = _ |- _ =>
          apply env_var_inv in He; destruct He as (? & ? & -> & ->)
      end;
    eexists _, _; (split; [reflexivity |]);
    unfold synthetic_entries;
    repeat match goal with
      | H1 : ?x = Return ?a, H2 : ?x = Return ?b |- _ =>
          rewrite H1 in H2; inversion H2; subst; clear H2
      end;
    eexists _, _, _, _, _, _; repeat (split; [eassumption |]);
    eexists _, _, _, _; repeat (split; [eassumption |]); reflexivity.
Qed.

(** A job the builder returns has the shape the source assembles; the only
    parts that vary are named. *)
Lemma kube_create_job_object_inv
  name container_image command namespace container_name env_vars extraConfig
  service_account_name w body w' :
  kube_create_job_object name container_image command namespace
    container_name env_vars extraConfig service_account_name w
  = (Return body, w') ->
  exists user resources resourcesReq synth volume_mounts secReq volumes
         psecReq node_selector,
    user_supplied env_vars user /\
    py_getattr extraConfig "resources" = Return resources /\
    (resources = PNone /\ resourcesReq = None /\ synth = [] \/
     resources <> PNone /\ (exists r, resourcesReq = Some r) /\
     synthetic_entries resources synth) /\
    body =
    {| job_api_version := "batch/v1";
       job_kind := "Job";
       job_metadata :=
         Some {| meta_namespace := Some (or_str namespace "default");
                 meta_name := name |};
       job_status := Some V1JobStatus_unset;
       job_spec :=
         Some
           {| js_ttl_seconds_after_finished := 300;
              js_template :=
                {| pts_metadata := None;
                   pts_spec :=
                     Some
                       {| ps_containers :=
                            [ {| c_name := or_str container_name "jobcontainer";
                                 c_image := container_image;
                                 c_env := user ++ synth;
                                 c_image_pull_policy := "IfNotPresent";
                                 c_args := split (or_str command "sleep 60");
                                 c_resources := resourcesReq;
                                 c_volume_mounts := volume_mounts;
                                 c_security_context := secReq |} ];
                          ps_restart_policy := "Never";
                          ps_termination_grace_period_seconds := 30;
                          ps_volumes := volumes;
                          ps_service_account_name := service_account_name;
                          ps_security_context := psecReq;
                          ps_node_selector := node_selector |} |};
              js_backoff_limit := 2 |} |}.
Proof.
  unfold kube_create_job_object. intros H.
  repeat bind_inv H. apply ret_inv in H. destruct H as [-> _].
  match goal with
  | He : collect (fun kv => env_var _ _) _ _ = _ |- _ =>
      apply env_loop_inv in He; destruct He as [He ->]
  end.
  match goal with
  | Hr : resource_requirements _ _ _ = _ |- _ =>
      apply resource_requirements_inv in Hr;
      destruct Hr as [[-> ->] | (Hne & r & synth & -> & Hs)]
  end.
  - eexists _, PNone, None, [], _, _, _, _, _.
    split; [eassumption |]. split; [eassumption |]. split; [left; auto |].
    simpl. rewrite app_nil_r. reflexivity.
  - eexists _, _, (Some r), synth, _, _, _, _, _.
    split; [eassumption |]. split; [eassumption |].
    split; [right; eauto |]. reflexivity.
Qed.

End BuilderInversion.

Lemma or_str_nonempty (x : option string) (d : string) :
  d <> "" -> or_str x d <> "".
Proof.
  intros Hd. unfold or_str. destruct x as [s |]; [| exact Hd].
  destruct (s =? "") eqn:E; [exact Hd |]. apply String.eqb_neq. exact E.
Qed.

Lemma or_str_nonempty_arg (s d : string) : s <> "" -> or_str (Some s) d = s.
Proof.
  intros H. unfold or_str. apply String.eqb_neq in H. rewrite H. reflexivity.
Qed.

(** ** The builder *)

Section Builder.

Context {ext : Externals}.

(** C3 (as amended).  The builder attempts no call and writes no log
    record, and it never inspects [container_image]: when it returns, the
    single container carries the image it was given, [None] included; when
    it raises, it raises the same exception whatever the image is. *)
Theorem kube_create_job_object_image_unchecked
  name container_image command namespace container_name env_vars extraConfig
  service_account_name w :
  snd (kube_create_job_object name container_image command namespace
         container_name env_vars extraConfig service_account_name w) = w /\
  match fst (kube_create_job_object name container_image command namespace
               container_name env_vars extraConfig service_account_name w)
  with
  | Return body =>
      exists c, job_containers body = [c] /\ c_image c = container_image
  | Raise e =>
      forall image',
        fst (kube_create_job_object name image' command namespace
               container_name env_vars extraConfig service_account_name w)
        = Raise e
  end.
Proof.
  split.
  - destruct (kube_create_job_object_effect_free name container_image command
                namespace container_name env_vars extraConfig
                service_account_name) as [r Hr].
    rewrite Hr. reflexivity.
  - destruct (kube_create_job_object name container_image command namespace
                container_name env_vars extraConfig service_account_name w)
      as [[body | e] w'] eqn:E; simpl.
    + apply kube_create_job_object_inv in E.
      destruct E as (? & ? & ? & ? & ? & ? & ? & ? & ? & _ & _ & _ & ->).
      eexists. split; reflexivity.
    + intros image'. revert E.
      unfold kube_create_job_object, bind, lift, ret.
      repeat match goal with
        | |- context [match ?x with _ => _ end] =>
            lazymatch x with
            | context [match _ with _ => _ end] => fail
            | _ => destruct x
            end
        end; simpl; intros E; inversion E; reflexivity.
Qed.

(** C4.  When the builder returns, the container's environment list
    starts with the user-supplied entries: one per item of [env_vars], in
    the order of the dict, named by the key and valued by [str] of the
    value.  If [extraConfig.resources] is present (not [None]), exactly the
    four entries [CPU_REQUESTS], [MEM_REQUESTS], [CPU_LIMITS], [MEM_LIMITS]
    follow, in that order, and a resource-requirements object is attached;
    if it is absent, nothing follows and no resource-requirements object is
    attached. *)
Theorem kube_create_job_object_env
  name container_image command namespace container_name env_vars extraConfig
  service_account_name w body w' :
  kube_create_job_object name container_image command namespace
    container_name env_vars extraConfig service_account_name w
  = (Return body, w') ->
  exists resources c user,
    py_getattr extraConfig "resources" = Return resources /\
    job_containers body = [c] /\
    Forall2
      (fun kv ev =>
         env_name ev = fst kv /\ py_str (snd kv) = Return (env_value ev))
      (match env_vars with Some d => d | None => [] end) user /\
    (resources <> PNone ->
     exists synth,
       synthetic_entries resources synth /\
       c_env c = user ++ synth /\
       c_resources c <> None) /\
    (resources = PNone -> c_env c = user /\ c_resources c = None).
Proof.
  intros H. apply kube_create_job_object_inv in H.
  destruct H as (user & resources & rq & synth & ? & ? & ? & ? & ? &
                 Huser & Hres & Hcase & ->).
  eexists resources, _, user. split; [exact Hres |]. split; [reflexivity |].
  split; [exact Huser |].
  simpl. destruct Hcase as [(-> & -> & ->) | (Hne & (r & ->) & Hs)].
  - split; [congruence |]. intros _. rewrite app_nil_r. auto.
  - split; [| congruence]. intros _. exists synth.
    repeat split; [exact Hs | discriminate].
Qed.

(** C5.  For every request the builder accepts, the pod template of the
    produced job has exactly one container and restart policy "Never". *)
Theorem kube_create_job_object_one_container
  name container_image command namespace container_name env_vars extraConfig
  service_account_name w body w' :
  kube_create_job_object name container_image command namespace
    container_name env_vars extraConfig service_account_name w
  = (Return body, w') ->
  exists ps c,
    job_pod_spec body = Some ps /\
    ps_containers ps = [c] /\
    length (ps_containers ps) = 1 /\
    ps_restart_policy ps = "Never".
Proof.
  intros H. apply kube_create_job_object_inv in H.
  destruct H as (? & ? & ? & ? & ? & ? & ? & ? & ? & _ & _ & _ & ->).
  eexists _, _. repeat split.
Qed.

(** C6.  For every request the builder accepts, the produced job carries
    the fixed constants: termination grace period 30, finished-job
    retention 300, backoff limit 2, and image-pull policy "IfNotPresent"
    on its container. *)
Theorem kube_create_job_object_constants
  name container_image command namespace container_name env_vars extraConfig
  service_account_name w body w' :
  kube_create_job_object name container_image command namespace
    container_name env_vars extraConfig service_account_name w
  = (Return body, w') ->
  exists js ps c,
    job_spec body = Some js /\
    pts_spec (js_template js) = Some ps /\
    ps_containers ps = [c] /\
    ps_termination_grace_period_seconds ps = 30%Z /\
    js_ttl_seconds_after_finished js = 300%Z /\
    js_backoff_limit js = 2%Z /\
    c_image_pull_policy c = "IfNotPresent".
Proof.
  intros H. apply kube_create_job_object_inv in H.
  destruct H as (? & ? & ? & ? & ? & ? & ? & ? & ? & _ & _ & _ & ->).
  eexists _, _, _. repeat split.
Qed.

(** C10.  For every request the builder accepts, the container's argument
    list is the given command cut at whitespace; a missing or empty command
    gives ["sleep"; "60"]; no argument is empty or contains a whitespace
    character, quoted or not, and the arguments glued together are the
    given command without its whitespace. *)
Theorem kube_create_job_object_args
  name container_image command namespace container_name env_vars extraConfig
  service_account_name w body w' :
  kube_create_job_object name container_image command namespace
    container_name env_vars extraConfig service_account_name w
  = (Return body, w') ->
  exists c,
    job_containers body = [c] /\
    (forall s, command = Some s -> s <> "" -> c_args c = split s) /\
    (command = None \/ command = Some "" -> c_args c = ["sleep"; "60"]) /\
    (forall t, In t (c_args c) -> t <> "" /\ no_space t) /\
    (forall s, command = Some s -> s <> "" ->
       fold_right String.append "" (c_args c) = strip_spaces s).
Proof.
  intros H. apply kube_create_job_object_inv in H.
  destruct H as (? & ? & ? & ? & ? & ? & ? & ? & ? & _ & _ & _ & ->).
  eexists. split; [reflexivity |]. simpl.
  split; [| split; [| split]].
  - intros s -> Hs. rewrite or_str_nonempty_arg by exact Hs. reflexivity.
  - intros [-> | ->]; reflexivity.
  - intros t. apply split_tokens.
  - intros s -> Hs. rewrite or_str_nonempty_arg by exact Hs.
    unfold split. rewrite split_from_concat. reflexivity.
Qed.

End Builder.

(** ** The environment loop *)

Section EnvLoop.

Context {ext : Externals}.

Lemma py_str_renderable (v : pyval) :
  renderable v = true -> exists s, py_str v = Return s.
Proof. intros H. unfold py_str. rewrite H. eauto. Qed.

Lemma py_str_not_renderable (v : pyval) :
  renderable v = false -> py_str v = Raise ValueError.
Proof. intros H. unfold py_str. rewrite H. reflexivity. Qed.

(** The loop over [env_vars.items()] goes through when [str] does. *)
Lemma env_loop_renders (d : list (string * pyval)) :
  Forall (fun kv => renderable (snd kv) = true) d ->
  exists env,
    forall w, collect (fun kv => env_var (fst kv) (snd kv)) d w = (Return env, w).
Proof.
  induction 1 as [| kv d Hkv _ IH]; simpl.
  - exists []. reflexivity.
  - destruct (py_str_renderable _ Hkv) as [s Hs]. destruct IH as [env IH].
    eexists. intros w. unfold bind at 1. unfold env_var at 1, bind at 1, lift.
    rewrite Hs. unfold ret at 1. unfold bind at 1. rewrite IH. reflexivity.
Qed.

(** The loop stops with [ValueError] at the first value [str] refuses. *)
Lemma env_loop_refuses (d : list (string * pyval)) :
  Exists (fun kv => renderable (snd kv) = false) d ->
  forall w,
    collect (fun kv => env_var (fst kv) (snd kv)) d w = (Raise ValueError, w).
Proof.
  induction d as [| kv d IH]; intros H w; [inversion H |].
  simpl. unfold bind at 1. unfold env_var at 1, bind at 1, lift.
  destruct (renderable (snd kv)) eqn:Hkv.
  - destruct (py_str_renderable _ Hkv) as [s Hs]. rewrite Hs.
    unfold ret at 1. unfold bind at 1. rewrite IH; [reflexivity |].
    inversion H; subst; [congruence | assumption].
  - rewrite (py_str_not_renderable _ Hkv). reflexivity.
Qed.

End EnvLoop.

(** ** The lifecycle calls *)

Section Lifecycle.

Context {client : ClusterClient} {rt : Runtime}.

(** C1 (what the code does).  The cleanup never lists and never deletes:
    it is a plain function that calls the asynchronous client without
    [await], so whatever pods the namespace holds and whatever phase is
    asked for, it raises before a single request is sent or a single record
    logged, and it returns no count. *)
Theorem kube_delete_empty_pods_sends_nothing
  (namespace phase : option string) (w : world) :
  exists e,
    kube_delete_empty_pods namespace phase w = (Raise e, w) /\
    calls (snd (kube_delete_empty_pods namespace phase w)) = calls w /\
    fst (kube_delete_empty_pods namespace phase w) <> Return (PInt 2) /\
    fst (kube_delete_empty_pods namespace phase w) <> Return (PInt 1).
Proof.
  unfold kube_delete_empty_pods, bind, lift, try_except_ApiException, ret,
    coroutine_getattr, raise.
  destruct CoreV1Api as [u | e]; eexists;
    (split; [reflexivity |]); simpl; repeat split; discriminate.
Qed.


(** C7.  The job deletion loads the in-cluster configuration and then
    issues one delete request, with propagation policy "Background" and
    grace period 0, in the given namespace or in "default" when none is
    given; no delete is issued when the configuration cannot be loaded. *)
Theorem kube_delete_job_request (name namespace : option string) (w : world) :
  calls (snd (kube_delete_job name namespace w))
  = calls w
    ++ LoadInclusterConfig
       :: (if is_return (load_incluster_config (calls w))
           then [DeleteNamespacedJob name (or_str namespace "default")
                   "Background" 0]
           else []) /\
  kube_delete_job name None w = kube_delete_job name (Some "default") w.
Proof.
  split; [| reflexivity].
  unfold kube_delete_job, bind, call, ret. cbn [calls logs].
  destruct (load_incluster_config (calls w)); cbn [is_return calls snd].
  - destruct (delete_namespaced_job _ _ _ _ _); cbn [snd calls];
      rewrite <- app_assoc; reflexivity.
  - reflexivity.
Qed.

(** C9.  With [extraConfig] absent or [None], job creation fails before
    anything leaves the module: no call is issued and nothing is logged.
    Once the environment values are rendered, the empty dict standing in
    for the configuration is asked for its attribute [resources], which it
    does not have, and the builder raises [AttributeError]. *)
Theorem kube_create_job_default_extraConfig {ext : Externals}
  (name image command namespace : option string)
  (env_vars : option (list (string * pyval)))
  (service_account_name : option string) (w : world) :
  (exists e,
     kube_create_job name image command namespace PNone env_vars
       service_account_name w
     = (Raise e, w)) /\
  (renders env_vars ->
   kube_create_job name image command namespace PNone env_vars
     service_account_name w
   = (Raise (AttributeError "dict" "resources"), w)) /\
  (~ renders env_vars ->
   kube_create_job name image command namespace PNone env_vars
     service_account_name w
   = (Raise ValueError, w)).
Proof.
  assert (Hgo : renders env_vars ->
                kube_create_job name image command namespace PNone env_vars
                  service_account_name w
                = (Raise (AttributeError "dict" "resources"), w)).
  { intros Hr. destruct (env_loop_renders _ Hr) as [env Henv].
    unfold kube_create_job, kube_create_job_object.
    unfold bind at 1. unfold bind at 1. rewrite Henv. reflexivity. }
  assert (Hstop : ~ renders env_vars ->
                  kube_create_job name image command namespace PNone env_vars
                    service_account_name w
                  = (Raise ValueError, w)).
  { intros Hn.
    destruct (Forall_Exists_dec
                (fun kv : string * pyval => renderable (snd kv) = true)
                (fun kv => bool_dec (renderable (snd kv)) true)
                (match env_vars with Some d => d | None => [] end))
      as [Hall | Hex]; [contradiction |].
    unfold kube_create_job, kube_create_job_object.
    unfold bind at 1. unfold bind at 1.
    rewrite env_loop_refuses; [reflexivity |].
    eapply Exists_impl; [| exact Hex].
    intros kv Hkv. simpl in Hkv. destruct (renderable (snd kv)); congruence. }
  split; [| split; [exact Hgo | exact Hstop]].
  destruct (Forall_Exists_dec
              (fun kv : string * pyval => renderable (snd kv) = true)
              (fun kv => bool_dec (renderable (snd kv)) true)
              (match env_vars with Some d => d | None => [] end))
    as [Hall | Hex].
  - eexists. apply Hgo. exact Hall.
  - eexists. apply Hstop. intros Hall. unfold renders in Hall.
    rewrite Forall_forall in Hall. apply Exists_exists in Hex.
    destruct Hex as (kv & Hin & Hkv). apply Hkv, Hall, Hin.
Qed.

End Lifecycle.

(** ** The statements at the sample surroundings *)


(** C3 as stated fails: a request without container image, otherwise well
    formed, is accepted, and the job it yields has no image. *)
Lemma kube_create_job_object_accepts_missing_image :
  exists body c,
    kube_create_job_object (ext := plain_externals)
      (Some "job") None None None None sample_env
      (sample_config sample_resources) None fresh_world
    = (Return body, fresh_world) /\
    job_containers body = [c] /\
    c_image c = None.
Proof. eexists _, _. repeat split. Qed.

(** C4 at the sample request, resources present. *)
Lemma kube_create_job_object_env_witness :
  exists body,
    kube_create_job_object (ext := plain_externals)
      (Some "job") (Some "owl/pipeline:1.0")
      (Some "sh  -c 'echo hello world'") (Some "owl") None sample_env
      (sample_config sample_resources) None fresh_world
    = (Return body, fresh_world) /\
    exists resources c user,
      py_getattr (sample_config sample_resources) "resources"
      = Return resources /\
      job_containers body = [c] /\
      Forall2
        (fun kv ev =>
           env_name ev = fst kv /\
           py_str (ext := plain_externals) (snd kv) = Return (env_value ev))
        (match sample_env with Some d => d | None => [] end) user /\
      (resources <> PNone ->
       exists synth,
         synthetic_entries (ext := plain_externals) resources synth /\
         c_env c = user ++ synth /\
         c_resources c <> None) /\
      (resources = PNone -> c_env c = user /\ c_resources c = None).
Proof.
  eexists. split; [reflexivity |].
  apply (kube_create_job_object_env (ext := plain_externals)
           (Some "job") (Some "owl/pipeline:1.0")
           (Some "sh  -c 'echo hello world'") (Some "owl") None sample_env
           (sample_config sample_resources) None fresh_world _ fresh_world).
  reflexivity.
Defined.

(** The environment list of the sample request, spelled out. *)
Example kube_create_job_object_env_sample :
  exists body,
    kube_create_job_object (ext := plain_externals)
      (Some "job") (Some "owl/pipeline:1.0")
      (Some "sh  -c 'echo hello world'") (Some "owl") None sample_env
      (sample_config sample_resources) None fresh_world
    = (Return body, fresh_world) /\
    map c_env (job_containers body)
    = [ [ {| env_name := "OWL_JOB"; env_value := "42" |};
          {| env_name := "DEBUG"; env_value := "True" |};
          {| env_name := "CPU_REQUESTS"; env_value := "500m" |};
          {| env_name := "MEM_REQUESTS"; env_value := "1Gi" |};
          {| env_name := "CPU_LIMITS"; env_value := "2" |};
          {| env_name := "MEM_LIMITS"; env_value := "4Gi" |} ] ].
Proof. eexists. split; reflexivity. Qed.

(** C5 at the sample request. *)
Lemma kube_create_job_object_one_container_witness :
  exists body,
    kube_create_job_object (ext := plain_externals)
      (Some "job") (Some "owl/pipeline:1.0")
      (Some "sh  -c 'echo hello world'") (Some "owl") None sample_env
      (sample_config sample_resources) None fresh_world
    = (Return body, fresh_world) /\
    exists ps c,
      job_pod_spec body = Some ps /\
      ps_containers ps = [c] /\
      length (ps_containers ps) = 1 /\
      ps_restart_policy ps = "Never".
Proof.
  eexists. split; [reflexivity |].
  apply (kube_create_job_object_one_container (ext := plain_externals)
           (Some "job") (Some "owl/pipeline:1.0")
           (Some "sh  -c 'echo hello world'") (Some "owl") None sample_env
           (sample_config sample_resources) None fresh_world _ fresh_world).
  reflexivity.
Defined.

(** C6 at the sample request. *)
Lemma kube_create_job_object_constants_witness :
  exists body,
    kube_create_job_object (ext := plain_externals)
      (Some "job") (Some "owl/pipeline:1.0")
      (Some "sh  -c 'echo hello world'") (Some "owl") None sample_env
      (sample_config sample_resources) None fresh_world
    = (Return body, fresh_world) /\
    exists js ps c,
      job_spec body = Some js /\
      pts_spec (js_template js) = Some ps /\
      ps_containers ps = [c] /\
      ps_termination_grace_period_seconds ps = 30%Z /\
      js_ttl_seconds_after_finished js = 300%Z /\
      js_backoff_limit js = 2%Z /\
      c_image_pull_policy c = "IfNotPresent".
Proof.
  eexists. split; [reflexivity |].
  apply (kube_create_job_object_constants (ext := plain_externals)
           (Some "job") (Some "owl/pipeline:1.0")
           (Some "sh  -c 'echo hello world'") (Some "owl") None sample_env
           (sample_config sample_resources) None fresh_world _ fresh_world).
  reflexivity.
Defined.

(** C10 at the sample request, whose command carries a quoted argument
    with inner whitespace. *)
Lemma kube_create_job_object_args_witness :
  exists body,
    kube_create_job_object (ext := plain_externals)
      (Some "job") (Some "owl/pipeline:1.0")
      (Some "sh  -c 'echo hello world'") (Some "owl") None sample_env
      (sample_config sample_resources) None fresh_world
    = (Return body, fresh_world) /\
    exists c,
      job_containers body = [c] /\
      (forall s, Some "sh  -c 'echo hello world'" = Some s -> s <> "" ->
         c_args c = split s) /\
      (Some "sh  -c 'echo hello world'" = None \/
       Some "sh  -c 'echo hello world'" = Some "" ->
       c_args c = ["sleep"; "60"]) /\
      (forall t, In t (c_args c) -> t <> "" /\ no_space t) /\
      (forall s, Some "sh  -c 'echo hello world'" = Some s -> s <> "" ->
         fold_right String.append "" (c_args c) = strip_spaces s).
Proof.
  eexists. split; [reflexivity |].
  apply (kube_create_job_object_args (ext := plain_externals)
           (Some "job") (Some "owl/pipeline:1.0")
           (Some "sh  -c 'echo hello world'") (Some "owl") None sample_env
           (sample_config sample_resources) None fresh_world _ fresh_world).
  reflexivity.
Defined.

(** C9 at the sample environment on [steady_cluster]. *)
Lemma kube_create_job_default_extraConfig_witness :
  renders sample_env /\
  kube_create_job (client := steady_cluster) (ext := plain_externals)
    (Some "job") (Some "owl/pipeline:1.0") None None PNone sample_env None
    fresh_world
  = (Raise (AttributeError "dict" "resources"), fresh_world).
Proof.
  assert (H : renders sample_env) by (repeat constructor).
  split; [exact H |].
  exact (proj1 (proj2 (kube_create_job_default_extraConfig
                         (client := steady_cluster) (ext := plain_externals)
                         (Some "job") (Some "owl/pipeline:1.0") None None
                         sample_env None fresh_world)) H).
Defined.

(** The quoted argument of the sample command is cut at its inner
    whitespace. *)
Example split_quoted :
  split "sh  -c 'echo hello world'" = ["sh"; "-c"; "'echo"; "hello"; "world'"].
Proof. reflexivity. Qed.

Example split_default : split "sleep 60" = ["sleep"; "60"].
Proof. reflexivity. Qed.

Example split_blank : split "  " = [].
Proof. reflexivity. Qed.

(** * Further properties *)

(** ** More on the builder *)

Lemma py_getattr_Return (v : pyval) (a : string) (x : pyval) :
  py_getattr v a = Return x ->
  exists attrs, v = PObj attrs /\ assoc a attrs = Some x.
Proof.
  destruct v; simpl; try discriminate.
  destruct (assoc a attrs) eqn:E; [| discriminate].
  intros H. inversion H; subst. eauto.
Qed.

Lemma py_getattr_PObj (attrs : list (string * pyval)) (a : string)
  (x : pyval) :
  py_getattr (PObj attrs) a = Return x -> assoc a attrs = Some x.
Proof.
  intros H. apply py_getattr_Return in H.
  destruct H as (attrs' & E & H). inversion E; subst. exact H.
Qed.

Lemma collect_lift_inv {A B} (f : A -> outcome B) (l : list A) w ys w' :
  collect (fun x => lift (f x)) l w = (Return ys, w') ->
  Forall2 (fun x y => f x = Return y) l ys /\ w' = w.
Proof.
  revert w ys w'. induction l as [| x l IH]; intros w ys w' H; simpl in H.
  - apply ret_inv in H. destruct H as [-> ->]. split; constructor.
  - bind_inv H. bind_inv H. apply ret_inv in H. destruct H as [-> ->].
    match goal with
    | Hc : collect _ _ _ = _ |- _ => apply IH in Hc; destruct Hc as [Hc ->]
    end.
    split; [constructor; assumption | reflexivity].
Qed.

Section BuilderMore.

Context {ext : Externals}.

Lemma convert_unless_None_inv v cls w o w' :
  convert_unless_None v cls w = (Return o, w') -> converted v cls o.
Proof.
  unfold convert_unless_None, converted.
  destruct v; simpl; intros H;
    try (apply ret_inv in H; destruct H as [-> _]; left; split; reflexivity);
    right; (split; [discriminate |]);
    bind_inv H; apply ret_inv in H; destruct H as [-> _]; eauto.
Qed.

(** Everything a returned job tells about the run that built it. *)
Lemma kube_create_job_object_run
  name container_image command namespace container_name env_vars extraConfig
  service_account_name w body w' :
  kube_create_job_object name container_image command namespace
    container_name env_vars extraConfig service_account_name w
  = (Return body, w') ->
  exists resources vms_attr vms sc vols_attr vols psc ps c,
    job_pod_spec body = Some ps /\
    ps_containers ps = [c] /\
    py_getattr extraConfig "resources" = Return resources /\
    py_getattr extraConfig "volumeMounts" = Return vms_attr /\
    py_iter vms_attr = Return vms /\
    py_getattr extraConfig "securityContext" = Return sc /\
    py_getattr extraConfig "volumes" = Return vols_attr /\
    py_iter vols_attr = Return vols /\
    py_getattr extraConfig "podSecurityContext" = Return psc /\
    py_getattr extraConfig "node_selector" = Return (ps_node_selector ps) /\
    Forall2 (fun vm r => _make_spec_from_dict vm V1VolumeMount = Return r)
      vms (c_volume_mounts c) /\
    Forall2 (fun vol r => _make_spec_from_dict vol V1Volume = Return r)
      vols (ps_volumes ps) /\
    converted sc V1SecurityContext (c_security_context c) /\
    converted psc V1PodSecurityContext (ps_security_context ps).
Proof.
  unfold kube_create_job_object. intros H.
  repeat bind_inv H. apply ret_inv in H. destruct H as [-> _].
  match goal with
  | He : collect (fun kv => env_var _ _) _ _ = _ |- _ =>
      apply env_loop_inv in He; destruct He as [_ ->]
  end.
  repeat match goal with
    | Hc : collect _ _ _ = _ |- _ =>
        apply collect_lift_inv in Hc; destruct Hc as [Hc ->]
    | Hc : convert_unless_None _ _ _ = _ |- _ =>
        apply convert_unless_None_inv in Hc
    end.
  eexists _, _, _, _, _, _, _, _, _.
  split; [reflexivity |]. split; [reflexivity |].
  cbn. repeat (split; [eassumption |]). eassumption.
Qed.

(** X1.  The builder returns only for an [extraConfig] that is an object
    carrying every attribute it reads: [resources], [volumeMounts],
    [securityContext], [volumes], [podSecurityContext], [node_selector]. *)
Theorem kube_create_job_object_needs_attributes
  name container_image command namespace container_name env_vars extraConfig
  service_account_name w body w' :
  kube_create_job_object name container_image command namespace
    container_name env_vars extraConfig service_account_name w
  = (Return body, w') ->
  exists attrs,
    extraConfig = PObj attrs /\
    forall a, In a config_attributes -> assoc a attrs <> None.
Proof.
  intros H. apply kube_create_job_object_run in H.
  destruct H as (? & ? & ? & ? & ? & ? & ? & ? & ? & _ & _ & H1 & H2 & _ &
                 H3 & H4 & _ & H5 & H6 & _).
  apply py_getattr_Return in H1. destruct H1 as (attrs & -> & H1).
  exists attrs. split; [reflexivity |].
  apply py_getattr_PObj in H2, H3, H4, H5, H6.
  intros a Ha. simpl in Ha.
  destruct Ha as [<- | [<- | [<- | [<- | [<- | [<- | []]]]]]]; congruence.
Qed.

(** X2.  Volume mounts and volumes are mapped one to one and in order:
    the container's mounts are the conversions of the elements of
    [extraConfig.volumeMounts] into [V1VolumeMount], the pod's volumes those
    of [extraConfig.volumes] into [V1Volume]; none is dropped, added or
    reordered. *)
Theorem kube_create_job_object_volumes
  name container_image command namespace container_name env_vars extraConfig
  service_account_name w body w' :
  kube_create_job_object name container_image command namespace
    container_name env_vars extraConfig service_account_name w
  = (Return body, w') ->
  exists vms_attr vms vols_attr vols ps c,
    job_pod_spec body = Some ps /\
    ps_containers ps = [c] /\
    py_getattr extraConfig "volumeMounts" = Return vms_attr /\
    py_iter vms_attr = Return vms /\
    py_getattr extraConfig "volumes" = Return vols_attr /\
    py_iter vols_attr = Return vols /\
    Forall2 (fun vm r => _make_spec_from_dict vm V1VolumeMount = Return r)
      vms (c_volume_mounts c) /\
    Forall2 (fun vol r => _make_spec_from_dict vol V1Volume = Return r)
      vols (ps_volumes ps) /\
    length (c_volume_mounts c) = length vms /\
    length (ps_volumes ps) = length vols.
Proof.
  intros H. apply kube_create_job_object_run in H.
  destruct H as (? & vms_attr & vms & ? & vols_attr & vols & ? & ps & c &
                 Hps & Hc & _ & H1 & H2 & _ & H3 & H4 & _ & _ & F1 & F2 & _).
  exists vms_attr, vms, vols_attr, vols, ps, c.
  repeat (split; [assumption |]).
  split; symmetry; eapply Forall2_length; eassumption.
Qed.

(** X3.  The two security contexts are kept apart: the container gets the
    conversion of [extraConfig.securityContext] into [V1SecurityContext],
    the pod that of [extraConfig.podSecurityContext] into
    [V1PodSecurityContext], and each is absent exactly when its source is
    [None]. *)
Theorem kube_create_job_object_security_contexts
  name container_image command namespace container_name env_vars extraConfig
  service_account_name w body w' :
  kube_create_job_object name container_image command namespace
    container_name env_vars extraConfig service_account_name w
  = (Return body, w') ->
  exists sc psc ps c,
    job_pod_spec body = Some ps /\
    ps_containers ps = [c] /\
    py_getattr extraConfig "securityContext" = Return sc /\
    py_getattr extraConfig "podSecurityContext" = Return psc /\
    converted sc V1SecurityContext (c_security_context c) /\
    converted psc V1PodSecurityContext (ps_security_context ps).
Proof.
  intros H. apply kube_create_job_object_run in H.
  destruct H as (? & ? & ? & sc & ? & ? & psc & ps & c &
                 Hps & Hc & _ & _ & _ & H1 & _ & _ & H2 & _ & _ & _ & C1 & C2).
  exists sc, psc, ps, c. auto 10.
Qed.

(** X4.  What the builder copies and what it defaults: the job is a
    "batch/v1" "Job" named as asked, in the given namespace or "default";
    the container is called as asked or "jobcontainer"; the service account
    name and [extraConfig.node_selector] reach the pod unchanged; the pod
    template has no metadata of its own. *)
Theorem kube_create_job_object_identity
  name container_image command namespace container_name env_vars extraConfig
  service_account_name w body w' :
  kube_create_job_object name container_image command namespace
    container_name env_vars extraConfig service_account_name w
  = (Return body, w') ->
  exists js ps c,
    job_api_version body = "batch/v1" /\
    job_kind body = "Job" /\
    job_metadata body
    = Some {| meta_namespace := Some (or_str namespace "default");
              meta_name := name |} /\
    job_status body = Some V1JobStatus_unset /\
    job_spec body = Some js /\
    pts_metadata (js_template js) = None /\
    pts_spec (js_template js) = Some ps /\
    ps_containers ps = [c] /\
    c_name c = or_str container_name "jobcontainer" /\
    c_name c <> "" /\
    ps_service_account_name ps = service_account_name /\
    py_getattr extraConfig "node_selector" = Return (ps_node_selector ps).
Proof.
  intros H. pose proof H as H'.
  apply kube_create_job_object_run in H'.
  destruct H' as (? & ? & ? & ? & ? & ? & ? & ps & c & Hps & Hc & _ & _ & _ &
                  _ & _ & _ & _ & Hsel & _).
  apply kube_create_job_object_inv in H.
  destruct H as (? & ? & ? & ? & ? & ? & ? & ? & ? & _ & _ & _ & ->).
  cbn in Hps. inversion Hps; subst ps. cbn in Hc. inversion Hc; subst c.
  eexists _, _, _. cbn.
  repeat (split; [reflexivity |]).
  split; [| split; [reflexivity | exact Hsel]].
  apply or_str_nonempty. discriminate.
Qed.

(** X5.  Once the environment values are rendered, a [resources] value
    that is neither [None] nor a dict makes the builder raise [TypeError]
    before anything else of the configuration is looked at, leaving the
    world untouched. *)
Theorem kube_create_job_object_resources_not_mapping
  name container_image command namespace container_name env_vars extraConfig
  service_account_name w resources :
  renders env_vars ->
  py_getattr extraConfig "resources" = Return resources ->
  resources <> PNone ->
  (forall d, resources <> PDict d) ->
  exists m,
    kube_create_job_object name container_image command namespace
      container_name env_vars extraConfig service_account_name w
    = (Raise (TypeError m), w).
Proof.
  intros Hr Hres Hn Hd. destruct (env_loop_renders _ Hr) as [env Henv].
  unfold kube_create_job_object. unfold bind at 1. rewrite Henv.
  unfold bind, lift.
  rewrite Hres. unfold resource_requirements, bind, lift.
  destruct resources as [| | | | | d |];
    try congruence; try (exfalso; apply (Hd d); reflexivity);
    simpl; eauto.
Qed.

(** X6.  Once the environment values are rendered, a [resources] dict the
    client accepts but that lacks "requests" makes the builder raise
    [KeyError] on "requests"; one that has "requests" with "cpu" and
    "memory" but lacks "limits" makes it raise [KeyError] on "limits".  The
    world is untouched. *)
Theorem kube_create_job_object_resources_missing_key
  name container_image command namespace container_name env_vars extraConfig
  service_account_name w d r :
  renders env_vars ->
  py_getattr extraConfig "resources" = Return (PDict d) ->
  V1ResourceRequirements d = Return r ->
  (assoc "requests" d = None ->
   kube_create_job_object name container_image command namespace
     container_name env_vars extraConfig service_account_name w
   = (Raise (KeyError "requests"), w)) /\
  (forall rq cpu mem,
     assoc "requests" d = Some (PDict rq) ->
     assoc "cpu" rq = Some cpu ->
     assoc "memory" rq = Some mem ->
     assoc "limits" d = None ->
     kube_create_job_object name container_image command namespace
       container_name env_vars extraConfig service_account_name w
     = (Raise (KeyError "limits"), w)).
Proof.
  intros Henv Hres Hr. destruct (env_loop_renders _ Henv) as [env Hloop].
  split.
  - intros Hk. unfold kube_create_job_object. unfold bind at 1.
    rewrite Hloop. unfold bind, lift.
    rewrite Hres. unfold resource_requirements, bind, lift. simpl.
    rewrite Hr, Hk. reflexivity.
  - intros rq cpu mem H1 H2 H3 H4.
    unfold kube_create_job_object. unfold bind at 1.
    rewrite Hloop. unfold bind, lift.
    rewrite Hres. unfold resource_requirements, bind, lift. simpl.
    rewrite Hr, H1. simpl. rewrite H2, H3, H4. reflexivity.
Qed.

(** X7.  Once the environment values are rendered and with no resources
    asked for, an [extraConfig.volumeMounts] left at [None] makes the
    builder raise [TypeError]: [None] cannot be iterated, so "no mounts"
    has to be an empty list.  The world is untouched. *)
Theorem kube_create_job_object_mounts_None
  name container_image command namespace container_name env_vars extraConfig
  service_account_name w :
  renders env_vars ->
  py_getattr extraConfig "resources" = Return PNone ->
  py_getattr extraConfig "volumeMounts" = Return PNone ->
  kube_create_job_object name container_image command namespace
    container_name env_vars extraConfig service_account_name w
  = (Raise (TypeError "'NoneType' object is not iterable"), w).
Proof.
  intros Hr H1 H2. destruct (env_loop_renders _ Hr) as [env Henv].
  unfold kube_create_job_object. unfold bind at 1. rewrite Henv.
  unfold bind, lift.
  rewrite H1. unfold resource_requirements, ret. simpl.
  rewrite H2. reflexivity.
Qed.

Lemma user_supplied_names (d : list (string * pyval)) (env : list V1EnvVar) :
  Forall2
    (fun kv ev => env_name ev = fst kv /\ py_str (snd kv) = Return (env_value ev))
    d env ->
  map env_name env = map fst d.
Proof.
  induction 1 as [| kv ev d env [Hn _] _ IH]; simpl; [| rewrite Hn, IH];
    reflexivity.
Qed.

(** X8.  The derived entries do not replace user entries of the same
    name: with resources present, the names in the container's environment
    are the keys of [env_vars], in their order, followed by [CPU_REQUESTS],
    [MEM_REQUESTS], [CPU_LIMITS], [MEM_LIMITS]; so each of these four
    names occurs once more than among the keys, and the derived entry
    comes last. *)
Theorem kube_create_job_object_duplicate_names
  name container_image command namespace container_name env_vars extraConfig
  service_account_name w body w' resources :
  kube_create_job_object name container_image command namespace
    container_name env_vars extraConfig service_account_name w
  = (Return body, w') ->
  py_getattr extraConfig "resources" = Return resources ->
  resources <> PNone ->
  exists c,
    job_containers body = [c] /\
    map env_name (c_env c)
    = map fst (match env_vars with Some d => d | None => [] end)
      ++ synthetic_names /\
    forall n, In n synthetic_names ->
      entries_named n (c_env c)
      = S (count_occ string_dec
             (map fst (match env_vars with Some d => d | None => [] end)) n).
Proof.
  intros H Hres Hn. apply kube_create_job_object_inv in H.
  destruct H as (user & r' & ? & synth & ? & ? & ? & ? & ? &
                 Huser & Hres' & Hcase & ->).
  rewrite Hres in Hres'. inversion Hres'; subst r'.
  destruct Hcase as [(-> & _) | (_ & _ & Hs)]; [congruence |].
  destruct Hs as (? & ? & ? & ? & ? & ? & _ & _ & _ & _ & _ & _ &
                  s1 & s2 & s3 & s4 & _ & _ & _ & _ & ->).
  eexists. split; [reflexivity |]. cbn [c_env].
  assert (Hnames :
    map env_name
      (user ++
       [ {| env_name := "CPU_REQUESTS"; env_value := s1 |};
         {| env_name := "MEM_REQUESTS"; env_value := s2 |};
         {| env_name := "CPU_LIMITS"; env_value := s3 |};
         {| env_name := "MEM_LIMITS"; env_value := s4 |} ])
    = map fst (match env_vars with Some d => d | None => [] end)
      ++ synthetic_names).
  { rewrite map_app. unfold user_supplied in Huser.
    rewrite (user_supplied_names _ _ Huser). reflexivity. }
  split; [exact Hnames |].
  intros n Hin. unfold entries_named. rewrite Hnames, count_occ_app.
  simpl in Hin.
  destruct Hin as [<- | [<- | [<- | [<- | []]]]]; cbn; lia.
Qed.

(** X20.  The environment values are rendered before the configuration is
    looked at: when [str] refuses one of them (an integer of more than
    4300 digits, alone or inside a list or a dict) the builder raises
    [ValueError], whatever [extraConfig] and the other arguments are, and
    leaves the world untouched. *)
Theorem kube_create_job_object_env_refused
  name container_image command namespace container_name env_vars extraConfig
  service_account_name w :
  Exists (fun kv => renderable (snd kv) = false)
    (match env_vars with Some d => d | None => [] end) ->
  kube_create_job_object name container_image command namespace
    container_name env_vars extraConfig service_account_name w
  = (Raise ValueError, w).
Proof.
  intros H. unfold kube_create_job_object. unfold bind at 1.
  rewrite env_loop_refuses by exact H. reflexivity.
Qed.

End BuilderMore.

(** ** More on the argument list *)

Lemma string_app_nil (s : string) : (s ++ "")%string = s.
Proof. induction s as [| c s IH]; simpl; [| rewrite IH]; reflexivity. Qed.

Lemma rev_string_twice (s a b : string) :
  rev_string a (rev_string b s) = rev_string (s ++ a) b.
Proof.
  revert a b. induction s as [| c s IH]; intros a b; simpl.
  - reflexivity.
  - rewrite IH. reflexivity.
Qed.

Lemma rev_string_involutive (s : string) :
  rev_string "" (rev_string "" s) = s.
Proof. rewrite rev_string_twice. simpl. apply string_app_nil. Qed.

Lemma split_from_no_space (s tok : string) :
  no_space s -> split_from tok s = flush (rev_string tok s) [].
Proof.
  revert tok. induction s as [| c s IH]; intros tok H; simpl.
  - reflexivity.
  - rewrite (H c); [| simpl; auto]. apply IH.
    intros c' Hc'. apply H. simpl. auto.
Qed.

Lemma split_no_space (s : string) :
  s <> "" -> no_space s -> split s = [s].
Proof.
  intros Hne Hs. unfold split. rewrite split_from_no_space by exact Hs.
  assert (Hr : rev_string "" s <> "")
    by (destruct s; [congruence | apply rev_string_nonempty]).
  assert (Hf : forall t, t <> "" -> flush t [] = [rev_string "" t])
    by (intros [| ? ?] Ht; [congruence | reflexivity]).
  rewrite (Hf _ Hr), rev_string_involutive. reflexivity.
Qed.

Lemma flush_app (tok : string) (rest : list string) :
  flush tok rest = flush tok [] ++ rest.
Proof. destruct tok; reflexivity. Qed.

Lemma split_from_app (a b tok : string) (c : ascii) :
  isspace c = true ->
  split_from tok (a ++ String c b) = split_from tok a ++ split b.
Proof.
  intros Hc. revert tok. induction a as [| x a IH]; intros tok; simpl.
  - rewrite Hc. apply flush_app.
  - destruct (isspace x).
    + rewrite IH, (flush_app tok (split_from "" a)), flush_app.
      rewrite <- app_assoc. reflexivity.
    + apply IH.
Qed.

Section BuilderArgs.

Context {ext : Externals}.

(** X9.  A command without whitespace is passed as one argument: for a
    non-empty command free of whitespace the argument list is the command
    alone. *)
Theorem kube_create_job_object_single_argument
  name container_image command namespace container_name env_vars extraConfig
  service_account_name w body w' :
  kube_create_job_object name container_image (Some command) namespace
    container_name env_vars extraConfig service_account_name w
  = (Return body, w') ->
  command <> "" ->
  no_space command ->
  exists c, job_containers body = [c] /\ c_args c = [command].
Proof.
  intros H Hne Hs. apply kube_create_job_object_inv in H.
  destruct H as (? & ? & ? & ? & ? & ? & ? & ? & ? & _ & _ & _ & ->).
  eexists. split; [reflexivity |]. cbn [c_args].
  rewrite or_str_nonempty_arg by exact Hne.
  apply split_no_space; assumption.
Qed.

(** X10.  The argument list is cut at every whitespace character and
    nowhere else depends on what surrounds it: the arguments of
    [a + c + b], for a whitespace character [c], are the arguments of [a]
    followed by those of [b].  So leading, trailing and repeated
    whitespace change nothing. *)
Theorem kube_create_job_object_whitespace_concat
  name container_image namespace container_name env_vars extraConfig
  service_account_name w body w' (a b : string) (c : ascii) :
  kube_create_job_object name container_image
    (Some (a ++ String c b)%string) namespace
    container_name env_vars extraConfig service_account_name w
  = (Return body, w') ->
  isspace c = true ->
  exists ct, job_containers body = [ct] /\ c_args ct = split a ++ split b.
Proof.
  intros H Hc. apply kube_create_job_object_inv in H.
  destruct H as (? & ? & ? & ? & ? & ? & ? & ? & ? & _ & _ & _ & ->).
  eexists. split; [reflexivity |]. cbn [c_args].
  rewrite or_str_nonempty_arg by (destruct a; discriminate).
  apply split_from_app. exact Hc.
Qed.

End BuilderArgs.

(** ** More on the lifecycle calls *)

Section LifecycleMore.

Context {client : ClusterClient}.

Context {ext : Externals}.

(** X13.  Nothing is submitted for a request the builder rejects: job
    creation raises the builder's exception and leaves the world as it
    was, with no configuration load and no create call. *)
Theorem kube_create_job_builder_failure
  (name image command namespace : option string) (extraConfig : pyval)
  (env_vars : option (list (string * pyval)))
  (service_account_name : option string) (w w0 : world) (e : exn) :
  kube_create_job_object name image (Some (or_str command "sleep 60"))
    (Some (or_str namespace "default")) None env_vars
    (py_or extraConfig (PDict [])) service_account_name w
  = (Raise e, w0) ->
  kube_create_job name image command namespace extraConfig env_vars
    service_account_name w
  = (Raise e, w).
Proof.
  intros H.
  destruct (kube_create_job_object_effect_free name image
              (Some (or_str command "sleep 60"))
              (Some (or_str namespace "default")) None env_vars
              (py_or extraConfig (PDict [])) service_account_name)
    as [r Hr].
  rewrite Hr in H. injection H as Er Ew. subst r w0.
  unfold kube_create_job, bind. rewrite Hr. reflexivity.
Qed.

(** X14.  For a request the builder accepts, job creation loads the
    configuration and then issues one create call carrying the built job,
    into the namespace the job's own metadata names (the given one, or
    "default"); it writes no log, issues no create when the configuration
    cannot be loaded, and otherwise hands back the cluster's answer
    (return or exception) as it is. *)
Theorem kube_create_job_submits
  (name image command namespace : option string) (extraConfig : pyval)
  (env_vars : option (list (string * pyval)))
  (service_account_name : option string) (w w0 : world) (body : V1Job) :
  kube_create_job_object name image (Some (or_str command "sleep 60"))
    (Some (or_str namespace "default")) None env_vars
    (py_or extraConfig (PDict [])) service_account_name w
  = (Return body, w0) ->
  calls (snd (kube_create_job name image command namespace extraConfig
                env_vars service_account_name w))
  = calls w
    ++ LoadInclusterConfig
       :: (if is_return (load_incluster_config (calls w))
           then [CreateNamespacedJob (or_str namespace "default") body true]
           else []) /\
  logs (snd (kube_create_job name image command namespace extraConfig
               env_vars service_account_name w))
  = logs w /\
  job_metadata body
  = Some {| meta_namespace := Some (or_str namespace "default");
            meta_name := name |} /\
  (forall u, load_incluster_config (calls w) = Return u ->
     fst (kube_create_job name image command namespace extraConfig
            env_vars service_account_name w)
     = create_namespaced_job (calls w ++ [LoadInclusterConfig])
         (or_str namespace "default") body true).
Proof.
  intros H.
  destruct (kube_create_job_object_effect_free name image
              (Some (or_str command "sleep 60"))
              (Some (or_str namespace "default")) None env_vars
              (py_or extraConfig (PDict [])) service_account_name)
    as [r Hr].
  pose proof H as H'. rewrite Hr in H'. injection H' as Er Ew. subst r w0.
  apply kube_create_job_object_inv in H.
  destruct H as (? & ? & ? & ? & ? & ? & ? & ? & ? & _ & _ & _ & Hbody).
  assert (Hmeta : job_metadata body
                  = Some {| meta_namespace := Some (or_str namespace "default");
                            meta_name := name |}).
  { rewrite Hbody. cbn [job_metadata].
    rewrite or_str_nonempty_arg by (apply or_str_nonempty; discriminate).
    reflexivity. }
  clear Hbody.
  unfold kube_create_job, bind. rewrite Hr.
  unfold call, ret. cbn [calls logs].
  destruct (load_incluster_config (calls w)) as [u |] eqn:Hload;
    cbn [is_return].
  - destruct (create_namespaced_job (calls w ++ [LoadInclusterConfig])
                (or_str namespace "default") body true) eqn:Hc;
      cbn [fst snd calls logs];
      (split; [rewrite <- app_assoc; reflexivity |]);
      (split; [reflexivity |]); (split; [exact Hmeta |]);
      intros _ _; reflexivity.
  - cbn [fst snd calls logs]. split; [reflexivity |].
    split; [reflexivity |]. split; [exact Hmeta |].
    intros u Hu. discriminate Hu.
Qed.

(** X15.  Job creation needs an attribute-carrying [extraConfig]: given
    anything else ([None], a dict, a list, a string, a number) it raises
    [AttributeError] on [resources], once the environment values are
    rendered, before any call is issued; a falsy value is first replaced by
    an empty dict, which fails the same way. *)
Theorem kube_create_job_needs_object
  (name image command namespace : option string) (extraConfig : pyval)
  (env_vars : option (list (string * pyval)))
  (service_account_name : option string) (w : world) :
  (forall attrs, extraConfig <> PObj attrs) ->
  renders env_vars ->
  kube_create_job name image command namespace extraConfig env_vars
    service_account_name w
  = (Raise (AttributeError (type_name (py_or extraConfig (PDict [])))
              "resources"), w) /\
  (py_truthy extraConfig = false ->
   type_name (py_or extraConfig (PDict [])) = "dict").
Proof.
  intros Hobj Hr. destruct (env_loop_renders _ Hr) as [env Henv]. split.
  - unfold kube_create_job, kube_create_job_object.
    unfold bind at 1. unfold bind at 1. rewrite Henv. unfold bind, lift.
    destruct (py_or extraConfig (PDict [])) as [| | | | | | attrs] eqn:E;
      try reflexivity.
    exfalso. unfold py_or in E.
    destruct (py_truthy extraConfig); [| discriminate].
    apply (Hobj attrs). exact E.
  - intros Hf. unfold py_or. rewrite Hf. reflexivity.
Qed.

(** X16.  The credentials test and the job deletion swallow nothing: each
    loads the configuration and then issues its one call, raises whatever
    the first failing step raises, and writes no log; the credentials test
    returns [None] only when both steps went through, the deletion returns
    the cluster's answer. *)
Theorem kube_calls_propagate (name namespace : option string) (w : world) :
  fst (kube_test_credentials w)
  = match load_incluster_config (calls w) with
    | Raise e => Raise e
    | Return _ =>
        match get_api_resources (calls w ++ [LoadInclusterConfig]) with
        | Raise e => Raise e
        | Return _ => Return PNone
        end
    end /\
  calls (snd (kube_test_credentials w))
  = calls w
    ++ LoadInclusterConfig
       :: (if is_return (load_incluster_config (calls w))
           then [GetApiResources] else []) /\
  logs (snd (kube_test_credentials w)) = logs w /\
  fst (kube_delete_job name namespace w)
  = match load_incluster_config (calls w) with
    | Raise e => Raise e
    | Return _ =>
        delete_namespaced_job (calls w ++ [LoadInclusterConfig]) name
          (or_str namespace "default") "Background" 0%Z
    end /\
  logs (snd (kube_delete_job name namespace w)) = logs w.
Proof.
  unfold kube_test_credentials, kube_delete_job, bind, call, ret.
  cbn [calls logs].
  destruct (load_incluster_config (calls w)); cbn [is_return fst snd calls logs].
  - destruct (get_api_resources (calls w ++ [LoadInclusterConfig]));
      destruct (delete_namespaced_job (calls w ++ [LoadInclusterConfig]) name
                  (or_str namespace "default") "Background" 0%Z);
      cbn [fst snd calls logs]; rewrite <- ?app_assoc; auto.
  - auto.
Qed.

End LifecycleMore.

(** ** [id_generator] *)

Lemma get_lt (s : string) (i : nat) :
  i < String.length s ->
  exists c, String.get i s = Some c /\ In c (list_ascii_of_string s).
Proof.
  revert i. induction s as [| x s IH]; intros i Hi; simpl in Hi; [lia |].
  destruct i as [| i]; simpl.
  - exists x. auto.
  - destruct (IH i) as (c & Hc & Hin); [lia |]. exists c. auto.
Qed.

Section RandomFacts.

Context {R : RandomSource}.

Lemma choice_ok (chars : string) (r : rng) :
  chars <> "" ->
  exists c r',
    choice chars r = (Return c, r') /\ In c (list_ascii_of_string chars).
Proof.
  intros Hne. unfold choice.
  destruct (String.length chars) as [| k] eqn:El.
  - destruct chars; [congruence | discriminate El].
  - pose proof (randbelow_lt r (S k) (Nat.lt_0_succ k)) as Hlt.
    destruct (randbelow r (S k)) as [i r'] eqn:Er. simpl in Hlt.
    rewrite <- El in Hlt.
    destruct (get_lt chars i Hlt) as (c & Hc & Hin).
    rewrite Hc. eauto.
Qed.

Lemma choices_ok (chars : string) (n : nat) (r : rng) :
  chars <> "" ->
  exists s r',
    choices n chars r = (Return s, r') /\
    String.length s = n /\
    forall c, In c (list_ascii_of_string s) ->
              In c (list_ascii_of_string chars).
Proof.
  intros Hne. revert r. induction n as [| n IH]; intros r; simpl.
  - exists "", r. repeat split. intros c [].
  - destruct (choice_ok chars r Hne) as (c & r1 & Hc & Hin). rewrite Hc.
    destruct (IH r1) as (s & r2 & Hs & Hlen & Hall). rewrite Hs.
    exists (String c s), r2. split; [reflexivity |].
    split; [simpl; congruence |].
    intros c' [<- | H]; auto.
Qed.

(** X17.  Over a non-empty alphabet the generator always returns, and the
    identifier has exactly [size] characters (12 when no size is given,
    none for a negative size), each drawn from the alphabet. *)
Theorem id_generator_alphabet (size : option Z) (chars : string) (r : rng) :
  chars <> "" ->
  exists s r',
    id_generator size (Some chars) r = (Return s, r') /\
    String.length s
    = Z.to_nat (match size with Some n => n | None => 12%Z end) /\
    forall c, In c (list_ascii_of_string s) ->
              In c (list_ascii_of_string chars).
Proof. intros Hne. unfold id_generator. apply choices_ok. exact Hne. Qed.

(** X18.  The edges of the generator: a size of zero or less gives the
    empty identifier without drawing anything, whatever the alphabet; a
    positive size over an empty alphabet raises [IndexError], again without
    drawing. *)
Theorem id_generator_edges (r : rng) :
  (forall size chars,
     (size <= 0)%Z -> id_generator (Some size) chars r = (Return "", r)) /\
  (forall size,
     (0 < size)%Z ->
     id_generator (Some size) (Some "") r = (Raise IndexError, r)).
Proof.
  split.
  - intros size chars Hs. unfold id_generator.
    replace (Z.to_nat size) with 0 by lia. reflexivity.
  - intros size Hs. unfold id_generator.
    destruct (Z.to_nat size) as [| n] eqn:E; [lia |]. reflexivity.
Qed.

(** X19.  With the alphabet left at its default the generator always
    returns, and every character of the identifier is a lowercase ASCII
    letter or a digit; with the size left out as well the identifier has
    12 characters. *)
Theorem id_generator_default_alphabet (size : option Z) (r : rng) :
  exists s r',
    id_generator size None r = (Return s, r') /\
    String.length s
    = Z.to_nat (match size with Some n => n | None => 12%Z end) /\
    (size = None -> String.length s = 12) /\
    forall c, In c (list_ascii_of_string s) -> lower_alnum c = true.
Proof.
  unfold id_generator.
  destruct (choices_ok (ascii_lowercase ++ digits)
              (Z.to_nat (match size with Some n => n | None => 12%Z end)) r)
    as (s & r' & Hs & Hlen & Hall); [discriminate |].
  exists s, r'. split; [exact Hs |]. split; [exact Hlen |].
  split; [intros ->; exact Hlen |].
  intros c Hc. apply Hall in Hc.
  assert (Hf : forallb lower_alnum
                 (list_ascii_of_string (ascii_lowercase ++ digits)) = true)
    by reflexivity.
  rewrite forallb_forall in Hf. apply Hf. exact Hc.
Qed.

End RandomFacts.

(** ** The further statements at the sample surroundings *)

(** X1 at the sample request. *)
Lemma kube_create_job_object_needs_attributes_witness :
  exists body,
    kube_create_job_object (ext := plain_externals)
      (Some "job") (Some "owl/pipeline:1.0")
      (Some "sh  -c 'echo hello world'") (Some "owl") None sample_env
      (sample_config sample_resources) None fresh_world
    = (Return body, fresh_world) /\
    exists attrs,
      sample_config sample_resources = PObj attrs /\
      forall a, In a config_attributes -> assoc a attrs <> None.
Proof.
  eexists. split; [reflexivity |].
  eapply (kube_create_job_object_needs_attributes (ext := plain_externals)
      (Some "job") (Some "owl/pipeline:1.0")
      (Some "sh  -c 'echo hello world'") (Some "owl") None sample_env
      (sample_config sample_resources) None fresh_world _ fresh_world);
    try reflexivity; try discriminate.
Defined.

(** X2 at the sample request. *)
Lemma kube_create_job_object_volumes_witness :
  exists body,
    kube_create_job_object (ext := plain_externals)
      (Some "job") (Some "owl/pipeline:1.0")
      (Some "sh  -c 'echo hello world'") (Some "owl") None sample_env
      (sample_config sample_resources) None fresh_world
    = (Return body, fresh_world) /\
    exists vms_attr vms vols_attr vols ps c,
      job_pod_spec body = Some ps /\
      ps_containers ps = [c] /\
      py_getattr (sample_config sample_resources) "volumeMounts"
      = Return vms_attr /\
      py_iter vms_attr = Return vms /\
      py_getattr (sample_config sample_resources) "volumes"
      = Return vols_attr /\
      py_iter vols_attr = Return vols /\
      Forall2
        (fun vm r =>
           _make_spec_from_dict (Externals := plain_externals) vm V1VolumeMount
           = Return r)
        vms (c_volume_mounts c) /\
      Forall2
        (fun vol r =>
           _make_spec_from_dict (Externals := plain_externals) vol V1Volume
           = Return r)
        vols (ps_volumes ps) /\
      length (c_volume_mounts c) = length vms /\
      length (ps_volumes ps) = length vols.
Proof.
  eexists. split; [reflexivity |].
  apply (kube_create_job_object_volumes (ext := plain_externals)
      (Some "job") (Some "owl/pipeline:1.0")
      (Some "sh  -c 'echo hello world'") (Some "owl") None sample_env
      (sample_config sample_resources) None fresh_world _ fresh_world);
    try reflexivity; try discriminate.
Defined.

(** X3 at the sample request. *)
Lemma kube_create_job_object_security_contexts_witness :
  exists body,
    kube_create_job_object (ext := plain_externals)
      (Some "job") (Some "owl/pipeline:1.0")
      (Some "sh  -c 'echo hello world'") (Some "owl") None sample_env
      (sample_config sample_resources) None fresh_world
    = (Return body, fresh_world) /\
    exists sc psc ps c,
      job_pod_spec body = Some ps /\
      ps_containers ps = [c] /\
      py_getattr (sample_config sample_resources) "securityContext"
      = Return sc /\
      py_getattr (sample_config sample_resources) "podSecurityContext"
      = Return psc /\
      converted (ext := plain_externals) sc V1SecurityContext
        (c_security_context c) /\
      converted (ext := plain_externals) psc V1PodSecurityContext
        (ps_security_context ps).
Proof.
  eexists. split; [reflexivity |].
  apply (kube_create_job_object_security_contexts (ext := plain_externals)
      (Some "job") (Some "owl/pipeline:1.0")
      (Some "sh  -c 'echo hello world'") (Some "owl") None sample_env
      (sample_config sample_resources) None fresh_world _ fresh_world);
    try reflexivity; try discriminate.
Defined.

(** X4 at the sample request. *)
Lemma kube_create_job_object_identity_witness :
  exists body,
    kube_create_job_object (ext := plain_externals)
      (Some "job") (Some "owl/pipeline:1.0")
      (Some "sh  -c 'echo hello world'") (Some "owl") None sample_env
      (sample_config sample_resources) None fresh_world
    = (Return body, fresh_world) /\
    exists js ps c,
      job_api_version body = "batch/v1" /\
      job_kind body = "Job" /\
      job_metadata body
      = Some {| meta_namespace := Some (or_str (Some "owl") "default");
                meta_name := Some "job" |} /\
      job_status body = Some V1JobStatus_unset /\
      job_spec body = Some js /\
      pts_metadata (js_template js) = None /\
      pts_spec (js_template js) = Some ps /\
      ps_containers ps = [c] /\
      c_name c = or_str None "jobcontainer" /\
      c_name c <> "" /\
      ps_service_account_name ps = None /\
      py_getattr (sample_config sample_resources) "node_selector"
      = Return (ps_node_selector ps).
Proof.
  eexists. split; [reflexivity |].
  apply (kube_create_job_object_identity (ext := plain_externals)
      (Some "job") (Some "owl/pipeline:1.0")
      (Some "sh  -c 'echo hello world'") (Some "owl") None sample_env
      (sample_config sample_resources) None fresh_world _ fresh_world);
    try reflexivity; try discriminate.
Defined.

(** X8 at the sample request. *)
Lemma kube_create_job_object_duplicate_names_witness :
  exists body,
    kube_create_job_object (ext := plain_externals)
      (Some "job") (Some "owl/pipeline:1.0")
      (Some "sh  -c 'echo hello world'") (Some "owl") None sample_env
      (sample_config sample_resources) None fresh_world
    = (Return body, fresh_world) /\
    exists c,
      job_containers body = [c] /\
      map env_name (c_env c)
      = map fst (match sample_env with Some d => d | None => [] end)
        ++ synthetic_names /\
      forall n, In n synthetic_names ->
        entries_named n (c_env c)
        = S (count_occ string_dec
               (map fst (match sample_env with Some d => d | None => [] end))
               n).
Proof.
  eexists. split; [reflexivity |].
  apply (kube_create_job_object_duplicate_names (ext := plain_externals)
      (Some "job") (Some "owl/pipeline:1.0")
      (Some "sh  -c 'echo hello world'") (Some "owl") None sample_env
      (sample_config sample_resources) None fresh_world _ fresh_world sample_resources);
    try reflexivity; try discriminate.
Defined.

(** X5 at a request whose resources are a string. *)
Lemma kube_create_job_object_resources_not_mapping_witness :
  exists m,
    kube_create_job_object (ext := plain_externals)
      (Some "job") (Some "owl/pipeline:1.0") None None None sample_env
      (sample_config (PStr "2 cpus")) None fresh_world
    = (Raise (TypeError m), fresh_world).
Proof.
  apply (kube_create_job_object_resources_not_mapping (ext := plain_externals)
           (Some "job") (Some "owl/pipeline:1.0") None None None sample_env
           (sample_config (PStr "2 cpus")) None fresh_world (PStr "2 cpus")).
  - repeat constructor.
  - reflexivity.
  - discriminate.
  - intros d. discriminate.
Defined.

(** X6 at a request whose resources carry limits only. *)
Lemma kube_create_job_object_resources_missing_key_witness :
  kube_create_job_object (ext := plain_externals)
    (Some "job") (Some "owl/pipeline:1.0") None None None sample_env
    (sample_config (PDict [("limits", PDict [("cpu", PInt 2)])])) None
    fresh_world
  = (Raise (KeyError "requests"), fresh_world).
Proof.
  apply (kube_create_job_object_resources_missing_key
           (ext := plain_externals)
           (Some "job") (Some "owl/pipeline:1.0") None None None sample_env
           (sample_config (PDict [("limits", PDict [("cpu", PInt 2)])])) None
           fresh_world [("limits", PDict [("cpu", PInt 2)])]
           (PObj [("limits", PDict [("cpu", PInt 2)])]));
    try reflexivity; repeat constructor.
Defined.

(** X7 at a configuration whose mounts are left at [None]. *)
Lemma kube_create_job_object_mounts_None_witness :
  kube_create_job_object (ext := plain_externals)
    (Some "job") (Some "owl/pipeline:1.0") None None None sample_env
    (PObj [ ("resources", PNone); ("volumeMounts", PNone);
            ("securityContext", PNone); ("volumes", PNone);
            ("podSecurityContext", PNone); ("node_selector", PNone) ])
    None fresh_world
  = (Raise (TypeError "'NoneType' object is not iterable"), fresh_world).
Proof.
  apply (kube_create_job_object_mounts_None (ext := plain_externals));
    try reflexivity; repeat constructor.
Defined.

(** X9 at the command "date". *)
Lemma kube_create_job_object_single_argument_witness :
  exists body,
    kube_create_job_object (ext := plain_externals)
      (Some "job") (Some "owl/pipeline:1.0") (Some "date") None None
      sample_env (sample_config PNone) None fresh_world
    = (Return body, fresh_world) /\
    exists c, job_containers body = [c] /\ c_args c = ["date"].
Proof.
  eexists. split; [reflexivity |].
  apply (kube_create_job_object_single_argument (ext := plain_externals)
           (Some "job") (Some "owl/pipeline:1.0") "date" None None
           sample_env (sample_config PNone) None fresh_world _ fresh_world).
  - reflexivity.
  - discriminate.
  - intros c Hc. simpl in Hc.
    destruct Hc as [<- | [<- | [<- | [<- | []]]]]; reflexivity.
Defined.

(** X10 at "python" and "run.py  --fast" joined by a tab. *)
Lemma kube_create_job_object_whitespace_concat_witness :
  exists body,
    kube_create_job_object (ext := plain_externals)
      (Some "job") (Some "owl/pipeline:1.0")
      (Some ("python" ++ String (ascii_of_nat 9) "run.py  --fast")%string)
      None None sample_env (sample_config PNone) None fresh_world
    = (Return body, fresh_world) /\
    exists ct,
      job_containers body = [ct] /\
      c_args ct = split "python" ++ split "run.py  --fast".
Proof.
  eexists. split; [reflexivity |].
  apply (kube_create_job_object_whitespace_concat (ext := plain_externals)
           (Some "job") (Some "owl/pipeline:1.0") None None
           sample_env (sample_config PNone) None fresh_world _ fresh_world
           "python" "run.py  --fast" (ascii_of_nat 9)); reflexivity.
Defined.

(** X13 at a request whose resources are an empty dict. *)
Lemma kube_create_job_builder_failure_witness :
  kube_create_job (client := steady_cluster) (ext := plain_externals)
    (Some "job") (Some "owl/pipeline:1.0") None None
    (sample_config (PDict [])) sample_env None fresh_world
  = (Raise (KeyError "requests"), fresh_world).
Proof.
  apply (kube_create_job_builder_failure (client := steady_cluster)
           (ext := plain_externals)
           (Some "job") (Some "owl/pipeline:1.0") None None
           (sample_config (PDict [])) sample_env None fresh_world fresh_world
           (KeyError "requests")).
  reflexivity.
Defined.

(** X14 at the sample request on [steady_cluster]. *)
Lemma kube_create_job_submits_witness :
  exists body,
    kube_create_job_object (ext := plain_externals)
      (Some "job") (Some "owl/pipeline:1.0")
      (Some (or_str None "sleep 60")) (Some (or_str (Some "owl") "default"))
      None sample_env (py_or (sample_config sample_resources) (PDict []))
      None fresh_world
    = (Return body, fresh_world) /\
    calls (snd (kube_create_job (client := steady_cluster)
                  (ext := plain_externals)
                  (Some "job") (Some "owl/pipeline:1.0") None (Some "owl")
                  (sample_config sample_resources) sample_env None
                  fresh_world))
    = calls fresh_world
      ++ LoadInclusterConfig
         :: (if is_return
                  (load_incluster_config (ClusterClient := steady_cluster)
                     (calls fresh_world))
             then [CreateNamespacedJob (or_str (Some "owl") "default")
                     body true]
             else []) /\
    logs (snd (kube_create_job (client := steady_cluster)
                 (ext := plain_externals)
                 (Some "job") (Some "owl/pipeline:1.0") None (Some "owl")
                 (sample_config sample_resources) sample_env None
                 fresh_world))
    = logs fresh_world /\
    job_metadata body
    = Some {| meta_namespace := Some (or_str (Some "owl") "default");
              meta_name := Some "job" |} /\
    (forall u,
       load_incluster_config (ClusterClient := steady_cluster)
         (calls fresh_world) = Return u ->
       fst (kube_create_job (client := steady_cluster)
              (ext := plain_externals)
              (Some "job") (Some "owl/pipeline:1.0") None (Some "owl")
              (sample_config sample_resources) sample_env None fresh_world)
       = create_namespaced_job (ClusterClient := steady_cluster)
           (calls fresh_world ++ [LoadInclusterConfig])
           (or_str (Some "owl") "default") body true).
Proof.
  eexists. split; [reflexivity |].
  apply (kube_create_job_submits (client := steady_cluster)
           (ext := plain_externals)
           (Some "job") (Some "owl/pipeline:1.0") None (Some "owl")
           (sample_config sample_resources) sample_env None
           fresh_world fresh_world).
  reflexivity.
Defined.

(** X15 at an empty list given as [extraConfig]. *)
Lemma kube_create_job_needs_object_witness :
  kube_create_job (client := steady_cluster) (ext := plain_externals)
    (Some "job") (Some "owl/pipeline:1.0") None None (PList []) sample_env
    None fresh_world
  = (Raise (AttributeError (type_name (py_or (PList []) (PDict [])))
              "resources"), fresh_world) /\
  (py_truthy (PList []) = false ->
   type_name (py_or (PList []) (PDict [])) = "dict").
Proof.
  apply (kube_create_job_needs_object (client := steady_cluster)
           (ext := plain_externals)
           (Some "job") (Some "owl/pipeline:1.0") None None (PList [])
           sample_env None fresh_world).
  - intros attrs. discriminate.
  - repeat constructor.
Defined.

Lemma huge_not_renderable : renderable huge = false.
Proof.
  unfold huge, renderable, int_digits.
  rewrite Zabs2N.id, DecimalN.Unsigned.to_of.
  vm_compute. reflexivity.
Qed.

(** X20 at an environment holding an integer of 4301 digits, with no
    configuration at all. *)
Lemma kube_create_job_object_env_refused_witness :
  kube_create_job_object (ext := plain_externals)
    (Some "job") (Some "owl/pipeline:1.0") None None None
    (Some [("OWL_JOB", PInt 42); ("SEED", huge)]) PNone None fresh_world
  = (Raise ValueError, fresh_world).
Proof.
  apply (kube_create_job_object_env_refused (ext := plain_externals)).
  apply Exists_cons_tl. apply Exists_cons_hd. exact huge_not_renderable.
Defined.

(** X17 at [counter_source], five characters over "abc". *)
Lemma id_generator_alphabet_witness :
  exists s r',
    id_generator (R := counter_source) (Some 5%Z) (Some "abc") 0
    = (Return s, r') /\
    String.length s = Z.to_nat 5 /\
    forall c, In c (list_ascii_of_string s) ->
              In c (list_ascii_of_string "abc").
Proof.
  apply (id_generator_alphabet (R := counter_source) (Some 5%Z) "abc" 0).
  discriminate.
Defined.

(** X18 at [counter_source]: size 0 over "abc", size 3 over nothing. *)
Lemma id_generator_edges_witness :
  id_generator (R := counter_source) (Some 0%Z) (Some "abc") 4
  = (Return "", 4) /\
  id_generator (R := counter_source) (Some 3%Z) (Some "") 4
  = (Raise IndexError, 4).
Proof.
  destruct (id_generator_edges (R := counter_source) 4) as [H1 H2].
  split; [apply H1 | apply H2]; lia.
Defined.

Example id_generator_sample :
  fst (id_generator (R := counter_source) None None 0) = Return "ahov29gnu18f".
Proof. reflexivity. Qed.

(** X19 at [counter_source], size and alphabet left out. *)
Lemma id_generator_default_alphabet_witness :
  exists s r',
    id_generator (R := counter_source) None None 0 = (Return s, r') /\
    String.length s = 12 /\
    forall c, In c (list_ascii_of_string s) -> lower_alnum c = true.
Proof.
  destruct (id_generator_default_alphabet (R := counter_source) None 0)
    as (s & r' & H1 & _ & H3 & H4).
  exists s, r'. split; [exact H1 |]. split; [exact (H3 eq_refl) | exact H4].
Defined.
